(** * Gradient derivation of gradient-visualizer

    A shallow embedding of [src/utils/createGradient.ts] and
    [src/utils/assert.ts], and the properties of [createGradient] and
    [createGradientWithOklch].

    Numbers.  A JavaScript [number] is taken as an exact rational ([Q]):
    the gradient code itself performs no arithmetic, it only stores numbers
    and hands them to the colour library.  Rounding of binary64, [NaN] and
    the infinities are outside the model; an equality that holds "up to
    floating-point tolerance" in the program is stated here as an equality
    of rationals ([==]).

    Absent values.  [undefined] is [None].  An optional field of
    [GradientOptions] is either left out ([None]) or a number: a field
    that is present with the value [undefined] is not represented.  The
    values [assertIsDefined] is given in the gradient code come from the
    colour library, which gives [undefined] and never [null];
    [Assert.assertIsDefined] is the function on every value, [null]
    included.

    The colour library.  [culori/fn] is a dependency of the repository and
    its code is not part of it.  The entry points the gradient code calls
    form the interface [Culori]; what a proof needs from them is stated as
    a law of the library and named in the theorem.  [Reference] is an
    executable instance that satisfies every law; [ReferenceCss] is the
    same library reading the notation [oklch(l c h)] as well. *)

From Stdlib Require Import Ascii String QArith Qabs Qround Lqa.
From stdpp Require Import gmap strings list.

Local Open Scope string_scope.

(** ** Exceptions: [throw new TypeError(..)] *)

Inductive Error : Type :=
  | TypeError (msg : string).

Inductive Result (A : Type) : Type :=
  | Ok (a : A)
  | Throw (e : Error).
Arguments Ok {A} a.
Arguments Throw {A} e.

#[global] Instance Result_ret : MRet Result := fun _ a => Ok a.
#[global] Instance Result_bind : MBind Result := fun _ _ f m =>
  match m with
  | Ok a => f a
  | Throw e => Throw e
  end.
#[global] Instance Result_fmap : FMap Result := fun _ _ f m =>
  match m with
  | Ok a => Ok (f a)
  | Throw e => Throw e
  end.

(** [xs.map((x, i) => f(i, x))] where [f] may throw: the elements are
    visited from left to right and the first exception ends the loop. *)
Fixpoint mapiM_from {A B : Type} (f : nat -> A -> Result B) (i : nat)
    (xs : list A) : Result (list B) :=
  match xs with
  | [] => Ok []
  | x :: xs' =>
      y ← f i x;
      ys ← mapiM_from f (S i) xs';
      Ok (y :: ys)
  end.

Definition mapiM {A B : Type} (f : nat -> A -> Result B) (xs : list A)
    : Result (list B) :=
  mapiM_from f 0 xs.

(** ** [src/utils/assert.ts] *)

(** A value, [undefined] or [null]. *)
Module Assert.

Inductive Nullable (T : Type) : Type :=
  | Defined (v : T)
  | JsUndefined
  | JsNull.
Arguments Defined {T} v.
Arguments JsUndefined {T}.
Arguments JsNull {T}.

(** The text of a value that is not defined, as a template literal
    writes it. *)
Definition received {T : Type} (val : Nullable T) : string :=
  match val with
  | JsNull => "null"
  | _ => "undefined"
  end.

Definition assertIsDefined {T : Type} (val : Nullable T) (msg : option string)
    : Result T :=
  match val with
  | Defined v => Ok v
  | _ =>
      Throw (TypeError
        (default
           (String.append "Expected 'val' to be defined, but received "
                          (received val))
           msg))
  end.

Definition isDefined {T : Type} (val : Nullable T) : bool :=
  match val with
  | Defined _ => true
  | _ => false
  end.

(** A value that is never [null]. *)
Definition ofOption {T : Type} (val : option T) : Nullable T :=
  match val with
  | Some v => Defined v
  | None => JsUndefined
  end.

End Assert.

(** [assertIsDefined] on a value that is a [T] or [undefined] ([None]),
    as the gradient code calls it: [Assert.assertIsDefined] on
    [Assert.ofOption val]. *)
Definition assertIsDefined {T : Type} (val : option T) (msg : option string)
    : Result T :=
  match val with
  | Some v => Ok v
  | None =>
      Throw (TypeError
        (default "Expected 'val' to be defined, but received undefined" msg))
  end.

Definition isDefined {T : Type} (val : option T) : bool :=
  match val with
  | Some _ => true
  | None => false
  end.

(** ** Colour objects of culori *)

Module Rgb.
Record t : Type := mk { r : Q; g : Q; b : Q; alpha : option Q }.
End Rgb.

Module Oklch.
(** [{ mode: 'oklch', l, c, h?, alpha? }] *)
Record t : Type := mk { l : Q; c : Q; h : option Q; alpha : option Q }.
End Oklch.

(** The two modes the code registers with [setMode]. *)
Inductive Color : Type :=
  | ColorRgb (x : Rgb.t)
  | ColorOklch (x : Oklch.t).

(** An element of the array given to [interpolate]: a colour, or a pair
    [[colour, position]]. *)
Definition Keyframe : Type := Color * option Q.

(** Modelled from the spec: the "consumed collaborator" of its section 6,
    the colour library, whose code is not under [src/].  These are the
    entry points of [culori/fn] the gradient code calls, each at the mode
    it is called with: [clamp = clampGamut('oklch')],
    [oklch = converter('oklch')], [interpolate(.., 'oklch')], [samples]
    and [formatHex]; [parse] is the library's reading of a colour string.
    [undefined] is [None]. *)
Class Culori : Type := {
  parse : string -> option Color;
  clamp : string + Color -> option Color;
  oklch : option Color -> option Oklch.t;
  interpolate : list Keyframe -> Q -> Oklch.t;
  samples : nat -> list Q;
  formatHex : Color -> option string
}.

(** ** [src/utils/createGradient.ts] *)

Definition LUMINANCE : list N :=
  [950; 900; 800; 700; 600; 500; 400; 300; 200; 100; 50]%N.

Definition BLACK : string := "#000000".
Definition WHITE : string := "#FFFFFF".

(** A property key of the objects built by [Object.fromEntries]: a
    luminance label, or the key an out-of-range [LUMINANCE[i]] would give. *)
Inductive Key : Type :=
  | Label (n : N)
  | Undefined.

#[global] Instance Key_eq_dec : EqDecision Key.
Proof. solve_decision. Defined.

#[global] Instance Key_countable : Countable Key :=
  inj_countable'
    (fun k => match k with Label n => Some n | Undefined => None end)
    (fun o => match o with Some n => Label n | None => Undefined end)
    (fun k => match k with Label _ => eq_refl | Undefined => eq_refl end).

(** [LUMINANCE[i]!] *)
Definition LUMINANCE_at (i : nat) : Key :=
  match LUMINANCE !! i with
  | Some n => Label n
  | None => Undefined
  end.

Abbreviation Gradient := (gmap Key string).

(** [GradientOptions] has five optional fields, [Required<GradientOptions>]
    has all five: one record over the shape of a field. *)
Record GradientOptionsOf (F : Type -> Type) : Type := mkOptions {
  minL : F Q;
  maxL : F Q;
  darkChroma : F Q;
  lightChroma : F Q;
  mainColorStop : F Q
}.
Arguments mkOptions {F}.
Arguments minL {F}.
Arguments maxL {F}.
Arguments darkChroma {F}.
Arguments lightChroma {F}.
Arguments mainColorStop {F}.

Definition GradientOptions : Type := GradientOptionsOf option.
Definition RequiredGradientOptions : Type := GradientOptionsOf (fun A => A).

Module OklchPoint.
Record t : Type := mk { l : Q; c : Q; h : option Q }.
End OklchPoint.

Record GradientWithOklch : Type := mkGradientWithOklch {
  gradient : Gradient;
  oklchPoints : gmap Key OklchPoint.t;
  mainColorOklch : OklchPoint.t
}.

Definition DEFAULT_OPTIONS : RequiredGradientOptions :=
  {| minL := 0.2%Q;
     maxL := 0.98%Q;
     darkChroma := 0.001%Q;
     lightChroma := 0.01%Q;
     mainColorStop := 0.5%Q |}.

(** [{ ...defaults, ...options }]: a field the caller gives replaces the
    default, [options] may be absent altogether. *)
Definition spreadOptions (defaults : RequiredGradientOptions)
    (options : option GradientOptions) : RequiredGradientOptions :=
  match options with
  | None => defaults
  | Some o =>
      {| minL := default (minL defaults) (minL o);
         maxL := default (maxL defaults) (maxL o);
         darkChroma := default (darkChroma defaults) (darkChroma o);
         lightChroma := default (lightChroma defaults) (lightChroma o);
         mainColorStop := default (mainColorStop defaults) (mainColorStop o) |}
  end.

(** [Object.fromEntries]: the entries are written in order, a later one
    replaces an earlier one with the same key. *)
Definition fromEntries {V : Type} (entries : list (Key * V)) : gmap Key V :=
  fold_left (fun m kv => <[kv.1 := kv.2]> m) entries ∅.

(** [{ l: x.l, c: x.c, h: x.h }] *)
Definition pointOf (x : Oklch.t) : OklchPoint.t :=
  {| OklchPoint.l := Oklch.l x;
     OklchPoint.c := Oklch.c x;
     OklchPoint.h := Oklch.h x |}.

Section Code.
Context {lib : Culori}.

(** [{ ...lchMainColor, mode: 'oklch', l: .., c: .. }] *)
Definition withLC (lchMainColor : Oklch.t) (l c : Q) : Oklch.t :=
  {| Oklch.l := l;
     Oklch.c := c;
     Oklch.h := Oklch.h lchMainColor;
     Oklch.alpha := Oklch.alpha lchMainColor |}.

(** The argument of [clamp] that gives [lchDarkest]. *)
Definition darkestOf (lchMainColor : Oklch.t)
    (opts : RequiredGradientOptions) : Oklch.t :=
  withLC lchMainColor (minL opts) (darkChroma opts).

(** The argument of [clamp] that gives [lchLightest]. *)
Definition lightestOf (lchMainColor : Oklch.t)
    (opts : RequiredGradientOptions) : Oklch.t :=
  withLC lchMainColor (maxL opts) (lightChroma opts).

(** The array given to [interpolate]. *)
Definition keyframes (lchDarkest : Color) (lchMainColor : Oklch.t)
    (opts : RequiredGradientOptions) (lchLightest : Color) : list Keyframe :=
  [ (lchDarkest, None);
    (ColorOklch lchMainColor, Some (mainColorStop opts));
    (lchLightest, None) ].

(** The two calls of [setMode] register the oklch and the rgb mode with
    the library before anything else is done; they are its set-up and
    leave no trace in the result. *)
Definition createGradientWithOklch (mainColor : string)
    (options : option GradientOptions) : Result GradientWithOklch :=
  let opts := spreadOptions DEFAULT_OPTIONS options in
  lchMainColor ← assertIsDefined (oklch (clamp (inl mainColor))) None;
  lchDarkest ←
    assertIsDefined (clamp (inr (ColorOklch (darkestOf lchMainColor opts))))
      None;
  lchLightest ←
    assertIsDefined (clamp (inr (ColorOklch (lightestOf lchMainColor opts))))
      None;
  let lchGradient :=
    interpolate (keyframes lchDarkest lchMainColor opts lchLightest) in
  let sampledColors := map lchGradient (samples (length LUMINANCE)) in
  discreteGradient ←
    mapiM (fun i oklchColor =>
             color ← assertIsDefined (formatHex (ColorOklch oklchColor)) None;
             Ok (LUMINANCE_at i, color))
          sampledColors;
  let oklchPoints :=
    imap (fun i oklchColor => (LUMINANCE_at i, pointOf oklchColor))
         sampledColors in
  let gradient :=
    fromEntries (discreteGradient ++ [(Label 0, WHITE); (Label 1000, BLACK)]) in
  let allOklchPoints :=
    fromEntries
      (oklchPoints ++
       [ (Label 0, {| OklchPoint.l := 1; OklchPoint.c := 0;
                      OklchPoint.h := None |});
         (Label 1000, {| OklchPoint.l := 0; OklchPoint.c := 0;
                         OklchPoint.h := None |}) ]) in
  Ok {| gradient := gradient;
        oklchPoints := allOklchPoints;
        mainColorOklch := pointOf lchMainColor |}.

Definition createGradient (mainColor : string)
    (options : option GradientOptions) : Result Gradient :=
  gradient <$> createGradientWithOklch mainColor options.

End Code.

(** ** What the gradient code relies on from the colour library

    Each law is a property of one entry point of [Culori]; a theorem
    names the ones it uses. *)

Section Laws.
Context (lib : Culori).

(** Modelled from the spec: [clamp] (not under [src/]) reads a string as
    [parse] does and goes on with the colour read; a string that does not
    parse gives [undefined]. *)
Definition clamp_reads_strings : Prop :=
  forall s : string, clamp (inl s) = col ← parse s; clamp (inr col).

(** Modelled from the spec: "clampToGamut always succeeds for a
    structurally valid perceptual color" (section 6). *)
Definition clamp_defined : Prop :=
  forall col : Color, is_Some (clamp (inr col)).

(** What [clampGamut('oklch')] of culori does with a colour object: the
    oklch mode has no bounds of its own, so an oklch object comes back as
    it is.  This is a fact of the library ([culori/fn], not under
    [src/]), not of the spec, whose "clampToGamut" moves a colour into
    the gamut. *)
Definition clamp_keeps_oklch : Prop :=
  forall x : Oklch.t, clamp (inr (ColorOklch x)) = Some (ColorOklch x).

(** Modelled from the spec: "toPerceptualSpace" (section 6);
    [converter('oklch')] gives [undefined] for [undefined] and a colour
    for a colour. *)
Definition oklch_undefined : Prop :=
  oklch None = None.

(** Modelled from the spec: see [oklch_undefined]. *)
Definition oklch_defined : Prop :=
  forall col : Color, is_Some (oklch (Some col)).

(** Modelled from the spec: "toDisplayable" (section 6); [formatHex] of
    culori writes every colour object, its channels brought into range. *)
Definition formatHex_defined : Prop :=
  forall col : Color, is_Some (formatHex col).

(** Modelled from the spec: "sampleEquidistant(n): sequence of n
    positions in [0,1], evenly spaced including both endpoints"
    (section 6), position [i/(n-1)] for [i = 0..n-1] (section 4.1). *)
Definition samples_equidistant : Prop :=
  forall n : nat, (2 <= n)%nat ->
    samples n =
    map (fun i => inject_Z (Z.of_nat i) / inject_Z (Z.of_nat (n - 1)))%Q
        (seq 0 n).

(** Modelled from the spec: "buildInterpolationPath" (section 6) through
    (first, 0), (middle, p), (last, 1).  At the start of its domain the
    path is the first keyframe, wherever the middle one lies. *)
Definition path_starts_at_first : Prop :=
  forall (k0 : Oklch.t) (k1 k2 : Color) (p t : Q), (t <= 0)%Q ->
    interpolate [(ColorOklch k0, None); (k1, Some p); (k2, None)] t = k0.

(** Modelled from the spec: "buildInterpolationPath" (section 6).  At
    the end of its domain the path has the lightness and the chroma of
    the last keyframe, when the middle keyframe lies before the end. *)
Definition path_ends_at_last : Prop :=
  forall (k0 : Color) (k1 k2 : Oklch.t) (p t : Q), (p < 1)%Q -> (1 <= t)%Q ->
    let x :=
      interpolate
        [(k0, None); (ColorOklch k1, Some p); (ColorOklch k2, None)] t in
    (Oklch.l x == Oklch.l k2)%Q /\ (Oklch.c x == Oklch.c k2)%Q.

(** ** Vocabulary of the statements *)

(** The options after the defaults are filled in. *)
Definition optionsOf (options : option GradientOptions)
    : RequiredGradientOptions :=
  spreadOptions DEFAULT_OPTIONS options.

(** [lchMainColor], [lchDarkest] and [lchLightest] of a call. *)
Definition derives (mainColor : string) (options : option GradientOptions)
    (lchMainColor : Oklch.t) (lchDarkest lchLightest : Color) : Prop :=
  oklch (clamp (inl mainColor)) = Some lchMainColor /\
  clamp (inr (ColorOklch (darkestOf lchMainColor (optionsOf options))))
    = Some lchDarkest /\
  clamp (inr (ColorOklch (lightestOf lchMainColor (optionsOf options))))
    = Some lchLightest.

(** [lchGradient] of a call. *)
Definition lchGradientOf (options : option GradientOptions)
    (lchMainColor : Oklch.t) (lchDarkest lchLightest : Color) : Q -> Oklch.t :=
  interpolate
    (keyframes lchDarkest lchMainColor (optionsOf options) lchLightest).

(** [sampledColors] of a call. *)
Definition sampledColorsOf (options : option GradientOptions)
    (lchMainColor : Oklch.t) (lchDarkest lchLightest : Color) : list Oklch.t :=
  map (lchGradientOf options lchMainColor lchDarkest lchLightest)
      (samples (length LUMINANCE)).

End Laws.

(** The value returned once no assertion has fired, from the sampled
    colours, their hex strings and the main colour. *)
Definition resultOf (sampledColors : list Oklch.t) (hexes : list string)
    (lchMainColor : Oklch.t) : GradientWithOklch :=
  {| gradient :=
       fromEntries
         (imap (fun i hex => (LUMINANCE_at i, hex)) hexes
          ++ [(Label 0, WHITE); (Label 1000, BLACK)]);
     oklchPoints :=
       fromEntries
         (imap (fun i x => (LUMINANCE_at i, pointOf x)) sampledColors
          ++ [ (Label 0, {| OklchPoint.l := 1; OklchPoint.c := 0;
                            OklchPoint.h := None |});
               (Label 1000, {| OklchPoint.l := 0; OklchPoint.c := 0;
                               OklchPoint.h := None |}) ]);
     mainColorOklch := pointOf lchMainColor |}.

(** The position of sample [i] of 11. *)
Definition position (i : nat) : Q := (inject_Z (Z.of_nat i) / 10)%Q.

(** The 13 labels of a palette. *)
Definition LABELS : gset Key :=
  list_to_set
    (map Label [0; 50; 100; 200; 300; 400; 500; 600; 700; 800; 900; 950; 1000]%N).

Definition WHITE_POINT : OklchPoint.t :=
  {| OklchPoint.l := 1; OklchPoint.c := 0; OklchPoint.h := None |}.
Definition BLACK_POINT : OklchPoint.t :=
  {| OklchPoint.l := 0; OklchPoint.c := 0; OklchPoint.h := None |}.

(** The options with every default written out, and with no field. *)
Definition explicitDefaults : GradientOptions :=
  {| minL := Some 0.2%Q;
     maxL := Some 0.98%Q;
     darkChroma := Some 0.001%Q;
     lightChroma := Some 0.01%Q;
     mainColorStop := Some 0.5%Q |}.

Definition noOptions : GradientOptions :=
  {| minL := None; maxL := None; darkChroma := None; lightChroma := None;
     mainColorStop := None |}.

(** Only the two chromas set, to 0. *)
Definition achromaticEnds : GradientOptions :=
  {| minL := None; maxL := None; darkChroma := Some 0%Q;
     lightChroma := Some 0%Q; mainColorStop := None |}.

(** Only [mainColorStop] set, beyond the end of the path. *)
Definition lateStop : GradientOptions :=
  {| minL := None; maxL := None; darkChroma := None; lightChroma := None;
     mainColorStop := Some 2%Q |}.

(** ** A reference instance of the colour library

    An executable library in the sense of section 6 of the spec: colour
    strings are read ([parse]), a colour is taken to the perceptual space
    ([oklch]) and clamped ([clamp]), a path is built through keyframes
    ([interpolate]), [n] equidistant positions are produced ([samples])
    and a colour is written as a hex string ([formatHex]).

    The positions of the keyframes, the clamping of the path parameter,
    the search of the segment and the piecewise-linear interpolation of
    each channel are those of culori's [interpolate]; [samples n] gives
    the positions [i/(n-1)].  The conversion between sRGB and OKLCH needs
    cube roots and arctangents, which have no exact rational value: in
    its place the instance uses the hexagonal lightness/chroma/hue
    cylinder over RGB, which has the same shape (a hue in degrees, absent
    when the chroma is zero). *)

Module Reference.

Local Open Scope Q_scope.

Definition Qltb (x y : Q) : bool := negb (Qle_bool y x).

Definition Qmax (x y : Q) : Q := if Qle_bool x y then y else x.
Definition Qmin (x y : Q) : Q := if Qle_bool x y then x else y.

(** *** Reading [#rrggbb] *)

Definition hexDigit (a : ascii) : option Z :=
  let n := Z.of_nat (nat_of_ascii a) in
  if ((48 <=? n) && (n <=? 57))%Z then Some (n - 48)%Z
  else if ((97 <=? n) && (n <=? 102))%Z then Some (n - 87)%Z
  else if ((65 <=? n) && (n <=? 70))%Z then Some (n - 55)%Z
  else None.

Definition hexByte (a b : ascii) : option Q :=
  hi ← hexDigit a;
  lo ← hexDigit b;
  Some (inject_Z (16 * hi + lo) / 255).

Definition parseHex (s : string) : option Color :=
  match s with
  | String "#" (String r1 (String r2 (String g1 (String g2
      (String b1 (String b2 EmptyString)))))) =>
      r ← hexByte r1 r2;
      g ← hexByte g1 g2;
      b ← hexByte b1 b2;
      Some (ColorRgb {| Rgb.r := r; Rgb.g := g; Rgb.b := b;
                        Rgb.alpha := None |})
  | _ => None
  end.

(** *** Between RGB and the lightness/chroma/hue cylinder *)

(** [h mod 360], in [0, 360). *)
Definition normalizeHue (h : Q) : Q :=
  h - 360 * inject_Z (Qfloor (h / 360)).

Definition rgbToLch (x : Rgb.t) : Oklch.t :=
  let r := Rgb.r x in
  let g := Rgb.g x in
  let b := Rgb.b x in
  let hi := Qmax r (Qmax g b) in
  let lo := Qmin r (Qmin g b) in
  let c := hi - lo in
  {| Oklch.l := (hi + lo) / 2;
     Oklch.c := c;
     Oklch.h :=
       if Qeq_bool c 0 then None
       else if Qeq_bool hi r then Some (normalizeHue (60 * ((g - b) / c)))
       else if Qeq_bool hi g then Some (60 * ((b - r) / c + 2))
       else Some (60 * ((r - g) / c + 4));
     Oklch.alpha := Rgb.alpha x |}.

Definition lchToRgb (x : Oklch.t) : Rgb.t :=
  let c := Oklch.c x in
  let lo := Oklch.l x - c / 2 in
  let h' := normalizeHue (default 0 (Oklch.h x)) / 60 in
  let k := Qfloor h' in
  let f := h' - inject_Z k in
  let up := lo + c * f in
  let down := lo + c * (1 - f) in
  let hi := lo + c in
  let '(r, g, b) :=
    match k with
    | 0%Z => (hi, up, lo)
    | 1%Z => (down, hi, lo)
    | 2%Z => (lo, hi, up)
    | 3%Z => (lo, down, hi)
    | 4%Z => (up, lo, hi)
    | _ => (hi, lo, down)
    end in
  {| Rgb.r := r; Rgb.g := g; Rgb.b := b; Rgb.alpha := Oklch.alpha x |}.

(** [converter('oklch')] and [converter('rgb')] on a colour object. *)
Definition toOklch (col : Color) : Oklch.t :=
  match col with
  | ColorRgb x => rgbToLch x
  | ColorOklch x => x
  end.

Definition toRgb (col : Color) : Rgb.t :=
  match col with
  | ColorRgb x => x
  | ColorOklch x => lchToRgb x
  end.

(** *** [formatHex] *)

Definition hexChar (n : Z) : ascii :=
  ascii_of_nat (Z.to_nat (if (n <? 10)%Z then n + 48 else n + 87)%Z).

(** [Math.round(clamp(v) * 255)], the channel first brought into [0, 1]. *)
Definition fixup (v : Q) : Z :=
  Qfloor (Qmax 0 (Qmin 1 v) * 255 + 1 / 2).

Definition hexOfChannel (v : Q) (rest : string) : string :=
  let n := fixup v in
  String (hexChar (n / 16)) (String (hexChar (n mod 16)) rest).

Definition serializeHex (x : Rgb.t) : string :=
  String "#"
    (hexOfChannel (Rgb.r x)
       (hexOfChannel (Rgb.g x) (hexOfChannel (Rgb.b x) EmptyString))).

(** *** [interpolate] *)

(** The positions of the keyframes: an absent first position is 0, an
    absent last one is 1, a run of absent positions is spread evenly and
    a position below the one before it is raised to it. *)
Fixpoint normalizeFrom (prev : Q) (pending : nat) (arr : list (option Q))
    : list Q :=
  match arr with
  | [] => []
  | None :: rest => normalizeFrom prev (S pending) rest
  | Some y :: rest =>
      match pending with
      | O =>
          let y' := if Qltb y prev then prev else y in
          y' :: normalizeFrom y' O rest
      | S _ =>
          let inc := (y - prev) / inject_Z (Z.of_nat (S pending)) in
          map (fun k => prev + inject_Z (Z.of_nat k) * inc) (seq 1 pending)
            ++ y :: normalizeFrom y O rest
      end
  end.

Definition setLast (arr : list (option Q)) : list (option Q) :=
  match reverse arr with
  | None :: front => reverse (Some 1 :: front)
  | _ => arr
  end.

Definition normalizePositions (arr : list (option Q)) : list Q :=
  match setLast arr with
  | [] => []
  | first :: rest =>
      let p0 := default 0 first in
      p0 :: normalizeFrom p0 O rest
  end.

(** The neighbours a channel is interpolated between, segment by segment. *)
Fixpoint classes (arr : list (option Q)) : list (option (Q * Q)) :=
  match arr with
  | a :: (b :: _) as rest =>
      match a, b with
      | None, None => None
      | Some x, Some y => Some (x, y)
      | Some x, None => Some (x, x)
      | None, Some y => Some (y, y)
      end :: classes rest
  | _ => []
  end.

Definition lerp (a b t : Q) : Q := a + t * (b - a).

Definition interpolatorLinear (arr : list (option Q)) (t : Q) : option Q :=
  let cs := classes arr in
  let n := Z.of_nat (length cs) in
  let cls := t * inject_Z n in
  let idx := if Qle_bool 1 t then (n - 1)%Z else Z.max (Qfloor cls) 0 in
  match cs !! Z.to_nat idx with
  | Some (Some (a, b)) => Some (lerp a b (cls - inject_Z idx))
  | _ => None
  end.

Definition shorter (d : Q) : Q :=
  if Qle_bool (Qabs d) 180 then d
  else if Qltb 0 d then d - 360 else d + 360.

(** [fixupHueShorter]: each hue follows the one before it along the
    shorter arc. *)
Fixpoint fixupHueFrom (prevRaw prevFixed : option Q) (hues : list (option Q))
    : list (option Q) :=
  match hues with
  | [] => []
  | None :: rest => None :: fixupHueFrom None None rest
  | Some x :: rest =>
      let fixed :=
        match prevRaw, prevFixed with
        | Some p, Some q => shorter (normalizeHue x - normalizeHue p) + q
        | _, _ => normalizeHue x
        end in
      Some fixed :: fixupHueFrom (Some x) (Some fixed) rest
  end.

Definition fixupHueShorter (hues : list (option Q)) : list (option Q) :=
  fixupHueFrom None None hues.

(** [fixupAlpha]: when some keyframe has an alpha, the others are opaque. *)
Definition fixupAlpha (alphas : list (option Q)) : list (option Q) :=
  if forallb (fun a => negb (isDefined a)) alphas then alphas
  else map (fun a => Some (default 1 a)) alphas.

(** The index of the first position that is not below [t]. *)
Fixpoint segmentIndex (positions : list Q) (t : Q) : nat :=
  match positions with
  | [] => O
  | p :: rest => if Qltb p t then S (segmentIndex rest t) else O
  end.

Definition black : Oklch.t :=
  {| Oklch.l := 0; Oklch.c := 0; Oklch.h := None; Oklch.alpha := None |}.

(** Modelled from the spec: "buildInterpolationPath(keyframes, space)"
    (section 6; not under [src/]), piecewise linear in each channel
    (section 4.1, step 4).  The parameter is brought into [0, 1]; up to
    the first position the path is the first colour, past the last one
    the last colour, and in between the segment is the one that ends at
    the first position not below the parameter. *)
Definition interpolateOklch (colors : list Keyframe) (t : Q) : Oklch.t :=
  let conv_colors := map (fun kf => toOklch kf.1) colors in
  let positions := normalizePositions (map snd colors) in
  let n := (length conv_colors - 1)%nat in
  let t := Qmin (Qmax 0 t) 1 in
  if Qle_bool t (default 0 (positions !! O)) then
    default black (conv_colors !! O)
  else if Qltb (default 0 (positions !! n)) t then
    default black (conv_colors !! n)
  else
    let idx := segmentIndex positions t in
    let start := default 0 (positions !! (idx - 1)%nat) in
    let delta := default 0 (positions !! idx) - start in
    let P := (t - start) / delta in
    let t0 := (inject_Z (Z.of_nat idx) - 1 + P) / inject_Z (Z.of_nat n) in
    let channel (f : Oklch.t -> option Q)
        (fix_ : list (option Q) -> list (option Q)) : option Q :=
      interpolatorLinear (fix_ (map f conv_colors)) t0 in
    {| Oklch.l := default 0 (channel (fun x => Some (Oklch.l x)) id);
       Oklch.c := default 0 (channel (fun x => Some (Oklch.c x)) id);
       Oklch.h := channel Oklch.h fixupHueShorter;
       Oklch.alpha := channel Oklch.alpha fixupAlpha |}.

(** *** [samples] *)

(** Modelled from the spec: "sampleEquidistant(n)" (section 6; not under
    [src/]). *)
Definition samplesOf (n : nat) : list Q :=
  match n with
  | O => []
  | 1%nat => [0.5]
  | _ =>
      map (fun i => inject_Z (Z.of_nat i) / inject_Z (Z.of_nat (n - 1)))
          (seq 0 n)
  end.

(** *** The instance *)

(** Modelled from the spec: "clampToGamut" (section 6; not under
    [src/]), at the mode [oklch].  A string is parsed; the oklch mode
    sets no bounds of its own, so a colour object comes back as it is. *)
Definition clampOklch (color : string + Color) : option Color :=
  match color with
  | inl s => parseHex s
  | inr col => Some col
  end.

(** Modelled from the spec: the colour library of section 6 (not under
    [src/]), made of the functions above. *)
#[export] Instance culori : Culori := {|
  parse := parseHex;
  clamp := clampOklch;
  oklch := fmap toOklch;
  interpolate := interpolateOklch;
  samples := samplesOf;
  formatHex := fun col => Some (serializeHex (toRgb col))
|}.

End Reference.

(** ** Two more laws of the colour library *)

Section MoreLaws.
Context (lib : Culori).

(** Modelled from the spec: "buildInterpolationPath" (section 6; not under
    [src/]), through (first, 0), (middle, p), (last, 1).  At the position
    of the middle keyframe, when it lies strictly inside the domain, the
    path has the lightness and the chroma of that keyframe. *)
Definition path_passes_through_middle : Prop :=
  forall (k0 k2 : Color) (k1 : Oklch.t) (p t : Q),
    (0 < p)%Q -> (p < 1)%Q -> (t == p)%Q ->
    let x := interpolate [(k0, None); (ColorOklch k1, Some p); (k2, None)] t in
    (Oklch.l x == Oklch.l k1)%Q /\ (Oklch.c x == Oklch.c k1)%Q.

(** Modelled from the spec: "toDisplayable" (section 6; not under [src/]);
    what [formatHex] writes for a colour object is never the empty
    string. *)
Definition formatHex_not_empty : Prop :=
  forall col : Color, exists hex, formatHex col = Some hex /\ hex <> "".

(** What [converter('oklch')] of culori does with a colour that is
    already an oklch object: it comes back as it is (a fact of the
    library, which is not under [src/]). *)
Definition oklch_keeps_oklch : Prop :=
  forall x : Oklch.t, oklch (Some (ColorOklch x)) = Some x.

(** [{ ...x, h: hue }] *)
Definition setHue (x : Oklch.t) (hue : option Q) : Oklch.t :=
  {| Oklch.l := Oklch.l x;
     Oklch.c := Oklch.c x;
     Oklch.h := hue;
     Oklch.alpha := Oklch.alpha x |}.

(** Modelled from the spec: "toDisplayable" (section 6; not under [src/]).
    A colour without chroma is a grey: what [formatHex] writes for it
    does not depend on its hue. *)
Definition formatHex_ignores_hue_without_chroma : Prop :=
  forall (x : Oklch.t) (hue : option Q), (Oklch.c x == 0)%Q ->
    formatHex (ColorOklch (setHue x hue)) = formatHex (ColorOklch x).

(** The hue of a colour is undefined, or else ignored: whatever hue is
    put in its place, [formatHex] writes the same. *)
Definition hue_undefined_or_ignored (x : Oklch.t) : Prop :=
  Oklch.h x = None \/
  forall hue : option Q,
    formatHex (ColorOklch (setHue x hue)) = formatHex (ColorOklch x).

End MoreLaws.

(** ** The reference library, reading [oklch(l c h)] as well

    Modelled from the spec: "toPerceptualSpace" (section 6; not under
    [src/]).  With the oklch mode registered the library reads the
    functional notation [oklch(l c h)] besides the hex notation; the
    numbers are decimal, [l] and [c] as they stand and [h] in degrees. *)

Module ReferenceCss.

(** The digits at the head of [s]: their value after [acc], their
    number and what follows them. *)
Fixpoint digits (s : string) (acc : Z) (n : nat) : Z * nat * string :=
  match s with
  | String a rest =>
      let d := Z.of_nat (nat_of_ascii a) in
      if ((48 <=? d) && (d <=? 57))%Z
      then digits rest (10 * acc + (d - 48))%Z (S n)
      else (acc, n, s)
  | EmptyString => (acc, n, s)
  end.

(** A decimal number at the head of [s]: digits, then maybe a point and
    digits. *)
Definition number (s : string) : option (Q * string) :=
  let '(whole, n, rest) := digits s 0 0 in
  match n, rest with
  | O, _ => None
  | _, String "." rest' =>
      let '(all, k, rest'') := digits rest' whole 0 in
      match k with
      | O => None
      | _ => Some ((inject_Z all / inject_Z (10 ^ Z.of_nat k))%Q, rest'')
      end
  | _, _ => Some (inject_Z whole, rest)
  end.

(** [s] without the prefix [p]. *)
Fixpoint after (p s : string) : option string :=
  match p, s with
  | EmptyString, _ => Some s
  | String a p', String b s' => if Ascii.eqb a b then after p' s' else None
  | _, _ => None
  end.

Definition parseOklch (s : string) : option Color :=
  s1 ← after "oklch(" s;
  '(l, s2) ← number s1;
  s3 ← after " " s2;
  '(c, s4) ← number s3;
  s5 ← after " " s4;
  '(h, s6) ← number s5;
  match s6 with
  | ")" =>
      Some (ColorOklch {| Oklch.l := l; Oklch.c := c; Oklch.h := Some h;
                          Oklch.alpha := None |})
  | _ => None
  end.

Definition parseCss (s : string) : option Color :=
  match parseOklch s with
  | Some col => Some col
  | None => Reference.parseHex s
  end.

Definition clampOklch (color : string + Color) : option Color :=
  match color with
  | inl s => parseCss s
  | inr col => Some col
  end.

#[export] Instance culori : Culori := {|
  parse := parseCss;
  clamp := clampOklch;
  oklch := fmap Reference.toOklch;
  interpolate := Reference.interpolateOklch;
  samples := Reference.samplesOf;
  formatHex := fun col => Some (Reference.serializeHex (Reference.toRgb col))
|}.

End ReferenceCss.

(** The reference library with a [formatHex] that cannot write a colour
    whose lightness is above 1/2, to exercise the assertion on [color]. *)
Definition halfMute : Culori := {|
  parse := parse (Culori := Reference.culori);
  clamp := clamp (Culori := Reference.culori);
  oklch := oklch (Culori := Reference.culori);
  interpolate := interpolate (Culori := Reference.culori);
  samples := samples (Culori := Reference.culori);
  formatHex := fun col =>
    if Qle_bool (Oklch.l (Reference.toOklch col)) (1 # 2)
    then formatHex (Culori := Reference.culori) col
    else None
|}.

(** ** [src/App.tsx]: the computations of the page

    The React components render what the functions below compute; the
    rendering itself (markup, class names, number formatting) is not
    modelled. *)

Module App.

Definition LUMINANCE_ORDER : list N :=
  [0; 50; 100; 200; 300; 400; 500; 600; 700; 800; 900; 950; 1000]%N.

(** *** [LCPlot] *)

Module Padding.
Record t : Type := mk { top : Q; right : Q; bottom : Q; left : Q }.
End Padding.

Definition width : Q := 500.
Definition height : Q := 400.
Definition padding : Padding.t :=
  {| Padding.top := 30; Padding.right := 30; Padding.bottom := 50;
     Padding.left := 60 |}.
Definition plotWidth : Q :=
  (width - Padding.left padding - Padding.right padding)%Q.
Definition plotHeight : Q :=
  (height - Padding.top padding - Padding.bottom padding)%Q.

Definition maxC : Q := 0.4.

(** [{ lum, color: gradient[lum], ...oklchPoints[lum] }]: a key that is
    missing gives [undefined], and the fields of a missing point are
    missing. *)
Module SortedPoint.
Record t : Type := mk {
  lum : N;
  color : option string;
  l : option Q;
  c : option Q;
  h : option Q
}.
End SortedPoint.

Definition sortedPoints (data : GradientWithOklch) : list SortedPoint.t :=
  map (fun lum =>
         let point := oklchPoints data !! Label lum in
         {| SortedPoint.lum := lum;
            SortedPoint.color := gradient data !! Label lum;
            SortedPoint.l := OklchPoint.l <$> point;
            SortedPoint.c := OklchPoint.c <$> point;
            SortedPoint.h := point ≫= OklchPoint.h |})
      LUMINANCE_ORDER.

Definition gridResolution : nat := 40.
Definition cellWidth : Q := (plotWidth / inject_Z (Z.of_nat gridResolution))%Q.
Definition cellHeight : Q :=
  (plotHeight / inject_Z (Z.of_nat gridResolution))%Q.

Module Cell.
Record t : Type := mk { x : Q; y : Q; color : string }.
End Cell.


(** The chroma and the lightness of the cell in column [i] and row [j]. *)
Definition cellChroma (i : nat) : Q :=
  (inject_Z (Z.of_nat i) / inject_Z (Z.of_nat gridResolution) * maxC)%Q.
Definition cellLightness (j : nat) : Q :=
  (1 - inject_Z (Z.of_nat j) / inject_Z (Z.of_nat gridResolution))%Q.

Section WithLibrary.
Context {lib : Culori}.

(** [formatHex(clamp({ mode: "oklch", l, c, h: hue }))]; [formatHex] of
    [undefined] is [undefined]. *)
Definition cellHex (hue : option Q) (i j : nat) : option string :=
  clamp (inr (ColorOklch {| Oklch.l := cellLightness j;
                            Oklch.c := cellChroma i;
                            Oklch.h := hue;
                            Oklch.alpha := None |}))
  ≫= formatHex.

(** The body of the two loops: [if (hex) cells.push(..)], an empty string
    being as good as [undefined]. *)
Definition cellAt (hue : option Q) (i j : nat) : list Cell.t :=
  match cellHex hue i j with
  | Some hex =>
      if String.eqb hex "" then []
      else [ {| Cell.x :=
                  (Padding.left padding + inject_Z (Z.of_nat i) * cellWidth)%Q;
                Cell.y :=
                  (Padding.top padding + inject_Z (Z.of_nat j) * cellHeight)%Q;
                Cell.color := hex |} ]
  | None => []
  end.

Definition backgroundCells (hue : option Q) : list Cell.t :=
  flat_map (fun i => flat_map (fun j => cellAt hue i j) (seq 0 gridResolution))
           (seq 0 gridResolution).

End WithLibrary.

(** *** [App] *)

Definition DEFAULT_COLOR : string := "#3b82f6".
Definition DEFAULT_OPTIONS : RequiredGradientOptions :=
  {| minL := 0.2%Q;
     maxL := 0.98%Q;
     darkChroma := 0.001%Q;
     lightChroma := 0.01%Q;
     mainColorStop := 0.5%Q |}.

(** The two [useState] cells. *)
Record State : Type := mkState {
  mainColor : string;
  options : RequiredGradientOptions
}.

Definition initial : State :=
  {| mainColor := DEFAULT_COLOR; options := DEFAULT_OPTIONS |}.

(** [keyof GradientOptions] *)
Inductive OptionKey : Type :=
  | KminL | KmaxL | KdarkChroma | KlightChroma | KmainColorStop.

#[global] Instance OptionKey_eq_dec : EqDecision OptionKey.
Proof. solve_decision. Defined.

(** [options[key]] *)
Definition field (key : OptionKey) (o : RequiredGradientOptions) : Q :=
  match key with
  | KminL => minL o
  | KmaxL => maxL o
  | KdarkChroma => darkChroma o
  | KlightChroma => lightChroma o
  | KmainColorStop => mainColorStop o
  end.

(** [{ ...prev, [key]: value }] *)
Definition withField (prev : RequiredGradientOptions) (key : OptionKey)
    (value : Q) : RequiredGradientOptions :=
  match key with
  | KminL =>
      {| minL := value; maxL := maxL prev; darkChroma := darkChroma prev;
         lightChroma := lightChroma prev; mainColorStop := mainColorStop prev |}
  | KmaxL =>
      {| minL := minL prev; maxL := value; darkChroma := darkChroma prev;
         lightChroma := lightChroma prev; mainColorStop := mainColorStop prev |}
  | KdarkChroma =>
      {| minL := minL prev; maxL := maxL prev; darkChroma := value;
         lightChroma := lightChroma prev; mainColorStop := mainColorStop prev |}
  | KlightChroma =>
      {| minL := minL prev; maxL := maxL prev; darkChroma := darkChroma prev;
         lightChroma := value; mainColorStop := mainColorStop prev |}
  | KmainColorStop =>
      {| minL := minL prev; maxL := maxL prev; darkChroma := darkChroma prev;
         lightChroma := lightChroma prev; mainColorStop := value |}
  end.

(** [setOptions((prev) => ({ ...prev, [key]: value }))] *)
Definition updateOption (key : OptionKey) (value : Q) (st : State) : State :=
  {| mainColor := mainColor st;
     options := withField (options st) key value |}.

Definition setMainColor (color : string) (st : State) : State :=
  {| mainColor := color; options := options st |}.

Definition resetToDefaults (st : State) : State :=
  {| mainColor := DEFAULT_COLOR; options := DEFAULT_OPTIONS |}.

(** A [Required<GradientOptions>] given where a [GradientOptions] is
    expected: every field is there. *)
Definition asOptions (o : RequiredGradientOptions) : GradientOptions :=
  {| minL := Some (minL o);
     maxL := Some (maxL o);
     darkChroma := Some (darkChroma o);
     lightChroma := Some (lightChroma o);
     mainColorStop := Some (mainColorStop o) |}.

(** [createGradientWithOklch(mainColor, options)], the value of the
    [useMemo]. *)
Definition gradientData {lib : Culori} (st : State)
    : Result GradientWithOklch :=
  createGradientWithOklch (mainColor st) (Some (asOptions (options st))).

(** What the page goes through. *)
Inductive Event : Type :=
  | PickColor (color : string)
  | MoveSlider (key : OptionKey) (value : Q)
  | Reset.

Definition step (st : State) (ev : Event) : State :=
  match ev with
  | PickColor color => setMainColor color st
  | MoveSlider key value => updateOption key value st
  | Reset => resetToDefaults st
  end.

End App.

(** * Properties *)

(** ** The exception monad and [Object.fromEntries] *)

Lemma mapiM_from_defined {A : Type} (g : A -> option string)
    (key : nat -> Key) (xs : list A) (hexes : list string) (i : nat) :
  Forall2 (fun x hex => g x = Some hex) xs hexes ->
  mapiM_from (fun i x => color ← assertIsDefined (g x) None; Ok (key i, color))
    i xs
  = Ok (imap (fun j hex => (key (i + j)%nat, hex)) hexes).
Proof.
  intros HF. revert i.
  induction HF as [|x hex xs hexes Hx _ IH]; intros i; simpl.
  - reflexivity.
  - rewrite Hx. simpl. rewrite IH. simpl.
    rewrite Nat.add_0_r. do 2 f_equal.
    apply imap_ext. intros j y _. simpl. f_equal. f_equal. lia.
Qed.

Lemma mapiM_from_inv {A : Type} (g : A -> option string)
    (key : nat -> Key) (xs : list A) (ys : list (Key * string)) (i : nat) :
  mapiM_from (fun i x => color ← assertIsDefined (g x) None; Ok (key i, color))
    i xs = Ok ys ->
  exists hexes, Forall2 (fun x hex => g x = Some hex) xs hexes.
Proof.
  revert i ys. induction xs as [|x xs IH]; intros i ys H.
  - exists []. constructor.
  - simpl in H. destruct (g x) as [hex|] eqn:Hx; simpl in H; [|discriminate].
    destruct (mapiM_from _ (S i) xs) as [ys'|e] eqn:Hrec; simpl in H;
      [|discriminate].
    destruct (IH _ _ Hrec) as [hexes HF].
    exists (hex :: hexes). constructor; assumption.
Qed.

Lemma fromEntries_snoc {V : Type} (es : list (Key * V)) (k : Key) (v : V) :
  fromEntries (es ++ [(k, v)]) = <[k := v]> (fromEntries es).
Proof. unfold fromEntries. rewrite fold_left_app. reflexivity. Qed.

Lemma dom_fromEntries {V : Type} (es : list (Key * V)) :
  dom (fromEntries es) = list_to_set es.*1.
Proof.
  induction es as [|[k v] es IH] using rev_ind.
  - unfold fromEntries. simpl. apply dom_empty_L.
  - rewrite fromEntries_snoc, dom_insert_L, IH, fmap_app, list_to_set_app_L.
    simpl. rewrite (right_id_L ∅ (∪)). apply (comm_L (∪)).
Qed.

(** With distinct keys every entry can be read back. *)
Lemma fromEntries_lookup {V : Type} (es : list (Key * V)) (k : Key) (v : V) :
  NoDup es.*1 -> (k, v) ∈ es -> fromEntries es !! k = Some v.
Proof.
  induction es as [|[k' v'] es IH] using rev_ind; intros Hnd Hin.
  - inversion Hin.
  - rewrite fromEntries_snoc.
    rewrite fmap_app in Hnd. apply NoDup_app in Hnd as (Hnd & Hfresh & _).
    apply elem_of_app in Hin as [Hin | Hin].
    + assert (k <> k') as Hne.
      { intros ->. apply (Hfresh k').
        - apply list_elem_of_fmap. exists (k', v). split; [reflexivity|assumption].
        - simpl. left. }
      rewrite lookup_insert_ne by congruence. apply IH; assumption.
    + apply list_elem_of_singleton in Hin. injection Hin as -> ->.
      apply lookup_insert_eq.
Qed.

Lemma fromEntries_snoc2 {V : Type} (es : list (Key * V)) (k1 k2 : Key)
    (v1 v2 : V) :
  fromEntries (es ++ [(k1, v1); (k2, v2)])
  = <[k2 := v2]> (<[k1 := v1]> (fromEntries es)).
Proof.
  change (es ++ [(k1, v1); (k2, v2)])%list
    with (es ++ [(k1, v1)] ++ [(k2, v2)])%list.
  rewrite app_assoc, !fromEntries_snoc. reflexivity.
Qed.

Lemma resultOf_boundary (xs : list Oklch.t) (hexes : list string)
    (m : Oklch.t) :
  gradient (resultOf xs hexes m) !! Label 0 = Some WHITE /\
  gradient (resultOf xs hexes m) !! Label 1000 = Some BLACK /\
  oklchPoints (resultOf xs hexes m) !! Label 0 = Some WHITE_POINT /\
  oklchPoints (resultOf xs hexes m) !! Label 1000 = Some BLACK_POINT.
Proof.
  unfold resultOf; simpl. rewrite !fromEntries_snoc2.
  repeat split.
  - rewrite lookup_insert_ne by discriminate. apply lookup_insert_eq.
  - apply lookup_insert_eq.
  - rewrite lookup_insert_ne by discriminate. apply lookup_insert_eq.
  - apply lookup_insert_eq.
Qed.

Ltac eleven l :=
  do 11 (destruct l as [|? l]; [discriminate|]);
  destruct l; [|discriminate].

Lemma resultOf_dom (xs : list Oklch.t) (hexes : list string) (m : Oklch.t) :
  length xs = 11%nat -> length hexes = 11%nat ->
  dom (gradient (resultOf xs hexes m)) = LABELS /\
  dom (oklchPoints (resultOf xs hexes m)) = LABELS.
Proof.
  intros Hx Hh. eleven xs. eleven hexes.
  unfold resultOf; simpl gradient; simpl oklchPoints.
  rewrite !dom_fromEntries. split; vm_compute; reflexivity.
Qed.

Lemma resultOf_lookup (xs : list Oklch.t) (hexes : list string) (m : Oklch.t)
    (i : nat) (x : Oklch.t) (hex : string) :
  length xs = 11%nat -> length hexes = 11%nat ->
  xs !! i = Some x -> hexes !! i = Some hex ->
  gradient (resultOf xs hexes m) !! LUMINANCE_at i = Some hex /\
  oklchPoints (resultOf xs hexes m) !! LUMINANCE_at i = Some (pointOf x).
Proof.
  intros Hx Hh Hxi Hhi. eleven xs. eleven hexes.
  do 11 (destruct i as [|i];
         [ simpl in Hxi, Hhi; injection Hxi as <-; injection Hhi as <-;
           split; reflexivity | ]).
  discriminate.
Qed.

(** ** A call in closed form *)

Section Gradient.
Context {lib : Culori}.

Lemma run_Ok (mainColor : string) (options : option GradientOptions)
    (m : Oklch.t) (d l : Color) (hexes : list string) :
  derives lib mainColor options m d l ->
  Forall2 (fun x hex => formatHex (ColorOklch x) = Some hex)
    (sampledColorsOf lib options m d l) hexes ->
  createGradientWithOklch mainColor options
  = Ok (resultOf (sampledColorsOf lib options m d l) hexes m).
Proof.
  intros (Hm & Hd & Hl) HF.
  unfold createGradientWithOklch. cbv zeta.
  change (spreadOptions DEFAULT_OPTIONS options) with (optionsOf options).
  rewrite Hm. cbn [assertIsDefined mbind Result_bind].
  rewrite Hd. cbn [assertIsDefined mbind Result_bind].
  rewrite Hl. cbn [assertIsDefined mbind Result_bind].
  unfold mapiM.
  change (map (interpolate (keyframes d m (optionsOf options) l))
              (samples (length LUMINANCE)))
    with (sampledColorsOf lib options m d l).
  rewrite (mapiM_from_defined (fun x => formatHex (ColorOklch x))
             LUMINANCE_at _ hexes 0 HF).
  cbn [mbind Result_bind]. reflexivity.
Qed.

Hypothesis clamp_strings : clamp_reads_strings lib.
Hypothesis clamp_some : clamp_defined lib.
Hypothesis oklch_none : oklch_undefined lib.
Hypothesis oklch_some : oklch_defined lib.
Hypothesis formatHex_some : formatHex_defined lib.
Hypothesis samples_spec : samples_equidistant lib.

Lemma hexes_exist (xs : list Oklch.t) :
  exists hexes,
    Forall2 (fun x hex => formatHex (ColorOklch x) = Some hex) xs hexes.
Proof.
  induction xs as [|x xs [hexes IH]].
  - exists []. constructor.
  - destruct (formatHex_some (ColorOklch x)) as [hex Hhex].
    exists (hex :: hexes). constructor; assumption.
Qed.

Lemma derives_exist (mainColor : string) (options : option GradientOptions) :
  is_Some (parse mainColor) -> exists m d l, derives lib mainColor options m d l.
Proof.
  intros [col Hcol].
  destruct (clamp_some col) as [col' Hcol'].
  destruct (oklch_some col') as [m Hm].
  destruct (clamp_some (ColorOklch (darkestOf m (optionsOf options))))
    as [d Hd].
  destruct (clamp_some (ColorOklch (lightestOf m (optionsOf options))))
    as [l Hl].
  exists m, d, l. unfold derives.
  rewrite clamp_strings, Hcol. cbn [mbind option_bind].
  rewrite Hcol', Hm. auto.
Qed.

Lemma samples_eleven :
  samples (length LUMINANCE) = map position (seq 0 11).
Proof. rewrite samples_spec by (simpl; lia). reflexivity. Qed.

Lemma sampledColors_length (options : option GradientOptions) (m : Oklch.t)
    (d l : Color) :
  length (sampledColorsOf lib options m d l) = 11%nat.
Proof. unfold sampledColorsOf. rewrite samples_eleven. reflexivity. Qed.

Lemma sampledColors_lookup (options : option GradientOptions) (m : Oklch.t)
    (d l : Color) (i : nat) :
  (i <= 10)%nat ->
  sampledColorsOf lib options m d l !! i
  = Some (lchGradientOf lib options m d l (position i)).
Proof.
  intros Hi. unfold sampledColorsOf. rewrite samples_eleven.
  rewrite list_lookup_fmap, list_lookup_fmap, lookup_seq_lt by lia.
  reflexivity.
Qed.

(** A call on a colour that parses returns, and what it returns is known. *)
Lemma run_defined (mainColor : string) (options : option GradientOptions) :
  is_Some (parse mainColor) ->
  exists m d l hexes,
    derives lib mainColor options m d l /\
    Forall2 (fun x hex => formatHex (ColorOklch x) = Some hex)
      (sampledColorsOf lib options m d l) hexes /\
    createGradientWithOklch mainColor options
    = Ok (resultOf (sampledColorsOf lib options m d l) hexes m).
Proof.
  intros Hvalid.
  destruct (derives_exist mainColor options Hvalid) as (m & d & l & Hder).
  destruct (hexes_exist (sampledColorsOf lib options m d l)) as [hexes HF].
  exists m, d, l, hexes. repeat split; try assumption; try apply Hder.
  apply run_Ok; assumption.
Qed.

(** C1. For a [mainColor] that parses as a colour the call returns a
    result and none of the assertions fires; for one that does not parse
    the call throws the [TypeError] of the first assertion, and no
    colour is put in its place. *)
Theorem createGradientWithOklch_returns_or_throws (mainColor : string)
    (options : option GradientOptions) :
  (is_Some (parse mainColor) ->
   exists r, createGradientWithOklch mainColor options = Ok r) /\
  (parse mainColor = None ->
   createGradientWithOklch mainColor options
   = Throw (TypeError "Expected 'val' to be defined, but received undefined")).
Proof.
  split.
  - intros Hvalid.
    destruct (run_defined mainColor options Hvalid)
      as (m & d & l & hexes & _ & _ & Hrun).
    eexists. exact Hrun.
  - intros Hnone. unfold createGradientWithOklch. cbv zeta.
    rewrite clamp_strings, Hnone. cbn [mbind option_bind].
    rewrite oklch_none. reflexivity.
Qed.

(** What a call stores for sample [i]. *)
Lemma run_entry (options : option GradientOptions) (m : Oklch.t) (d l : Color)
    (hexes : list string) (i : nat) :
  Forall2 (fun x hex => formatHex (ColorOklch x) = Some hex)
    (sampledColorsOf lib options m d l) hexes ->
  (i <= 10)%nat ->
  let r := resultOf (sampledColorsOf lib options m d l) hexes m in
  let x := lchGradientOf lib options m d l (position i) in
  exists hex,
    formatHex (ColorOklch x) = Some hex /\
    gradient r !! LUMINANCE_at i = Some hex /\
    oklchPoints r !! LUMINANCE_at i = Some (pointOf x).
Proof.
  intros HF Hi r x.
  pose proof (sampledColors_lookup options m d l i Hi) as Hx.
  pose proof (sampledColors_length options m d l) as Hlen.
  destruct (Forall2_lookup_l _ _ _ _ _ HF Hx) as (hex & Hhex & Hfmt).
  exists hex. split; [exact Hfmt|].
  apply resultOf_lookup; try assumption.
  rewrite <- (Forall2_length _ _ _ HF). exact Hlen.
Qed.

(** C2. Both mappings of the result have exactly the 13 keys 0, 50, 100,
    200, ..., 900, 950 and 1000: their domain is that set (so each key
    is there once and there is no other), 13 entries each. *)
Theorem result_has_the_13_labels (mainColor : string)
    (options : option GradientOptions) :
  is_Some (parse mainColor) ->
  exists r,
    createGradientWithOklch mainColor options = Ok r /\
    dom (gradient r) = LABELS /\
    dom (oklchPoints r) = LABELS /\
    size (gradient r) = 13%nat /\
    size (oklchPoints r) = 13%nat.
Proof.
  intros Hvalid.
  destruct (run_defined mainColor options Hvalid)
    as (m & d & l & hexes & _ & HF & Hrun).
  pose proof (sampledColors_length options m d l) as Hlen.
  assert (length hexes = 11%nat) as Hlen'
    by (rewrite <- (Forall2_length _ _ _ HF); exact Hlen).
  destruct (resultOf_dom _ hexes m Hlen Hlen') as [Hg Hp].
  eexists. split; [exact Hrun|].
  split; [exact Hg|]. split; [exact Hp|].
  rewrite <- !size_dom, Hg, Hp. split; reflexivity.
Qed.

(** C3. Label 0 is pure white and label 1000 pure black in [gradient];
    in [oklchPoints] label 0 is [{l: 1, c: 0, h: undefined}] and label
    1000 is [{l: 0, c: 0, h: undefined}]. *)
Theorem boundary_labels_are_white_and_black (mainColor : string)
    (options : option GradientOptions) :
  is_Some (parse mainColor) ->
  exists r,
    createGradientWithOklch mainColor options = Ok r /\
    gradient r !! Label 0 = Some "#FFFFFF" /\
    gradient r !! Label 1000 = Some "#000000" /\
    oklchPoints r !! Label 0
    = Some {| OklchPoint.l := 1; OklchPoint.c := 0; OklchPoint.h := None |} /\
    oklchPoints r !! Label 1000
    = Some {| OklchPoint.l := 0; OklchPoint.c := 0; OklchPoint.h := None |}.
Proof.
  intros Hvalid.
  destruct (run_defined mainColor options Hvalid)
    as (m & d & l & hexes & _ & _ & Hrun).
  eexists. split; [exact Hrun|]. apply resultOf_boundary.
Qed.

(** C4. The path is sampled at the 11 positions [i/10], [i = 0..10], and
    sample [i] is stored, as a hex string and as a point, under the
    [i]-th label of 950, 900, 800, ..., 100, 50: sample 0 under 950 and
    sample 10 under 50. *)
Theorem samples_follow_LUMINANCE (mainColor : string)
    (options : option GradientOptions) :
  is_Some (parse mainColor) ->
  exists r m d l,
    createGradientWithOklch mainColor options = Ok r /\
    derives lib mainColor options m d l /\
    samples (length LUMINANCE) = map position (seq 0 11) /\
    sampledColorsOf lib options m d l
    = map (lchGradientOf lib options m d l) (map position (seq 0 11)) /\
    map LUMINANCE_at (seq 0 11)
    = map Label [950; 900; 800; 700; 600; 500; 400; 300; 200; 100; 50]%N /\
    LUMINANCE_at 0 = Label 950 /\
    LUMINANCE_at 10 = Label 50 /\
    forall i : nat, (i <= 10)%nat ->
      exists hex,
        formatHex (ColorOklch (lchGradientOf lib options m d l (position i)))
        = Some hex /\
        gradient r !! LUMINANCE_at i = Some hex /\
        oklchPoints r !! LUMINANCE_at i
        = Some (pointOf (lchGradientOf lib options m d l (position i))).
Proof.
  intros Hvalid.
  destruct (run_defined mainColor options Hvalid)
    as (m & d & l & hexes & Hder & HF & Hrun).
  exists (resultOf (sampledColorsOf lib options m d l) hexes m), m, d, l.
  split; [exact Hrun|]. split; [exact Hder|].
  split; [exact samples_eleven|].
  split; [unfold sampledColorsOf; rewrite samples_eleven; reflexivity|].
  do 3 (split; [reflexivity|]).
  intros i Hi. apply run_entry; assumption.
Qed.


(** C8. A call without options, one with an empty record and one with
    the five documented defaults written out return the same; a field the
    caller gives is the value used, a field left out has its default; and
    the options reach the result through the merged record only. *)
Theorem defaults_round_trip (mainColor : string) :
  createGradientWithOklch mainColor None
  = createGradientWithOklch mainColor (Some explicitDefaults) /\
  createGradientWithOklch mainColor (Some noOptions)
  = createGradientWithOklch mainColor (Some explicitDefaults) /\
  (forall o : GradientOptions,
     let opts := spreadOptions DEFAULT_OPTIONS (Some o) in
     minL opts = default 0.2%Q (minL o) /\
     maxL opts = default 0.98%Q (maxL o) /\
     darkChroma opts = default 0.001%Q (darkChroma o) /\
     lightChroma opts = default 0.01%Q (lightChroma o) /\
     mainColorStop opts = default 0.5%Q (mainColorStop o)) /\
  (forall options options' : option GradientOptions,
     spreadOptions DEFAULT_OPTIONS options
     = spreadOptions DEFAULT_OPTIONS options' ->
     createGradientWithOklch mainColor options
     = createGradientWithOklch mainColor options').
Proof.
  split; [reflexivity|]. split; [reflexivity|].
  split; [intros o; repeat split|].
  intros options options' Heq.
  unfold createGradientWithOklch. cbv zeta. rewrite Heq. reflexivity.
Qed.

(** C10. [createGradient] returns the [gradient] field of what
    [createGradientWithOklch] returns on the same arguments, and throws
    what it throws. *)
Theorem createGradient_is_the_gradient_field (mainColor : string)
    (options : option GradientOptions) :
  match createGradientWithOklch mainColor options with
  | Ok r => createGradient mainColor options = Ok (gradient r)
  | Throw e => createGradient mainColor options = Throw e
  end.
Proof.
  unfold createGradient.
  destruct (createGradientWithOklch mainColor options); reflexivity.
Qed.

(** ** The two ends of the path *)

Hypothesis clamp_oklch : clamp_keeps_oklch lib.
Hypothesis path_start : path_starts_at_first lib.
Hypothesis path_end : path_ends_at_last lib.

Lemma derives_endpoints (mainColor : string)
    (options : option GradientOptions) (m : Oklch.t) (d l : Color) :
  derives lib mainColor options m d l ->
  d = ColorOklch (darkestOf m (optionsOf options)) /\
  l = ColorOklch (lightestOf m (optionsOf options)).
Proof.
  intros (_ & Hd & Hl). rewrite clamp_oklch in Hd, Hl.
  split; congruence.
Qed.

Lemma first_sample (mainColor : string) (options : option GradientOptions)
    (m : Oklch.t) (d l : Color) :
  derives lib mainColor options m d l ->
  lchGradientOf lib options m d l (position 0)
  = darkestOf m (optionsOf options).
Proof.
  intros Hder. destruct (derives_endpoints _ _ _ _ _ Hder) as [-> ->].
  unfold lchGradientOf, keyframes. apply path_start.
  unfold position, Qle. simpl. lia.
Qed.

Lemma last_sample (mainColor : string) (options : option GradientOptions)
    (m : Oklch.t) (d l : Color) :
  derives lib mainColor options m d l ->
  (mainColorStop (optionsOf options) < 1)%Q ->
  let x := lchGradientOf lib options m d l (position 10) in
  (Oklch.l x == maxL (optionsOf options))%Q /\
  (Oklch.c x == lightChroma (optionsOf options))%Q.
Proof.
  intros Hder Hstop. destruct (derives_endpoints _ _ _ _ _ Hder) as [-> ->].
  unfold lchGradientOf, keyframes.
  apply (path_end (ColorOklch (darkestOf m (optionsOf options))) m
           (lightestOf m (optionsOf options))); [exact Hstop|].
  unfold position, Qle. simpl. lia.
Qed.


Hypothesis formatHex_grey : formatHex_ignores_hue_without_chroma lib.

(** C7. With [darkChroma = 0] and [lightChroma = 0] (and the main colour
    placed before the end of the path, as by default) both endpoint
    keyframes have chroma 0, and so have the sampled colours at the
    positions 0 and 1, stored under the labels 950 and 50; the hue of
    each is undefined or ignored: whatever hue is put in its place, the
    hex string under the label is the same. *)
Theorem achromatic_endpoints (mainColor : string) (o : GradientOptions) :
  is_Some (parse mainColor) ->
  darkChroma o = Some 0%Q ->
  lightChroma o = Some 0%Q ->
  (mainColorStop (optionsOf (Some o)) < 1)%Q ->
  exists r m kd kl x950 x50 p950 p50,
    createGradientWithOklch mainColor (Some o) = Ok r /\
    derives lib mainColor (Some o) m (ColorOklch kd) (ColorOklch kl) /\
    Oklch.c kd = 0%Q /\
    Oklch.c kl = 0%Q /\
    sampledColorsOf lib (Some o) m (ColorOklch kd) (ColorOklch kl) !! 0%nat
    = Some x950 /\
    sampledColorsOf lib (Some o) m (ColorOklch kd) (ColorOklch kl) !! 10%nat
    = Some x50 /\
    x950 = kd /\
    oklchPoints r !! Label 950 = Some p950 /\
    OklchPoint.c p950 = 0%Q /\
    OklchPoint.h p950 = Oklch.h x950 /\
    oklchPoints r !! Label 50 = Some p50 /\
    (OklchPoint.c p50 == 0)%Q /\
    OklchPoint.h p50 = Oklch.h x50 /\
    gradient r !! Label 950 = formatHex (ColorOklch x950) /\
    gradient r !! Label 50 = formatHex (ColorOklch x50) /\
    hue_undefined_or_ignored lib x950 /\
    hue_undefined_or_ignored lib x50.
Proof.
  intros Hvalid Hdark Hlight Hstop.
  destruct (run_defined mainColor (Some o) Hvalid)
    as (m & d & l & hexes & Hder & HF & Hrun).
  destruct (run_entry (Some o) m d l hexes 0 HF ltac:(lia))
    as (hex950 & Hfmt950 & Hg950 & H950).
  destruct (run_entry (Some o) m d l hexes 10 HF ltac:(lia))
    as (hex50 & Hfmt50 & Hg50 & H50).
  pose proof (first_sample _ _ _ _ _ Hder) as Hfirst.
  destruct (last_sample _ _ _ _ _ Hder Hstop) as [_ Hc50].
  pose proof (sampledColors_lookup (Some o) m d l 0 ltac:(lia)) as Hx950.
  pose proof (sampledColors_lookup (Some o) m d l 10 ltac:(lia)) as Hx50.
  destruct (derives_endpoints _ _ _ _ _ Hder) as [-> ->].
  assert (darkChroma (optionsOf (Some o)) = 0%Q) as Hdc
    by (unfold optionsOf; simpl; rewrite Hdark; reflexivity).
  assert (lightChroma (optionsOf (Some o)) = 0%Q) as Hlc
    by (unfold optionsOf; simpl; rewrite Hlight; reflexivity).
  rewrite Hlc in Hc50.
  set (kd := darkestOf m (optionsOf (Some o))) in *.
  set (kl := lightestOf m (optionsOf (Some o))) in *.
  set (x950 := lchGradientOf lib (Some o) m (ColorOklch kd) (ColorOklch kl)
                 (position 0)) in *.
  set (x50 := lchGradientOf lib (Some o) m (ColorOklch kd) (ColorOklch kl)
                (position 10)) in *.
  assert (Oklch.c x950 = 0%Q) as Hc950 by (rewrite Hfirst; exact Hdc).
  exists (resultOf (sampledColorsOf lib (Some o) m (ColorOklch kd)
                      (ColorOklch kl)) hexes m),
    m, kd, kl, x950, x50, (pointOf x950), (pointOf x50).
  split; [exact Hrun|]. split; [exact Hder|].
  split; [exact Hdc|]. split; [exact Hlc|].
  split; [exact Hx950|]. split; [exact Hx50|]. split; [exact Hfirst|].
  split; [exact H950|]. split; [exact Hc950|]. split; [reflexivity|].
  split; [exact H50|]. split; [exact Hc50|]. split; [reflexivity|].
  split; [rewrite Hfmt950; exact Hg950|].
  split; [rewrite Hfmt50; exact Hg50|].
  split; right; intros hue; apply formatHex_grey.
  - rewrite Hc950. reflexivity.
  - exact Hc50.
Qed.

Hypothesis oklch_same : oklch_keeps_oklch lib.

(** C5, what the code does.  [clamp] brings nothing into the gamut: for a
    main colour written as an oklch colour, [mainColorOklch] has the
    lightness, the chroma and the hue that are written, whatever they
    are, and this for every options record. *)
Theorem mainColorOklch_is_not_clamped (mainColor : string) (x : Oklch.t) :
  parse mainColor = Some (ColorOklch x) ->
  forall options : option GradientOptions,
    exists r,
      createGradientWithOklch mainColor options = Ok r /\
      OklchPoint.l (mainColorOklch r) = Oklch.l x /\
      OklchPoint.c (mainColorOklch r) = Oklch.c x /\
      OklchPoint.h (mainColorOklch r) = Oklch.h x.
Proof.
  intros Hparse options.
  assert (derives lib mainColor options x
            (ColorOklch (darkestOf x (optionsOf options)))
            (ColorOklch (lightestOf x (optionsOf options)))) as Hder.
  { unfold derives. rewrite clamp_strings, Hparse.
    cbn [mbind option_bind]. rewrite !clamp_oklch, oklch_same. auto. }
  destruct (hexes_exist
              (sampledColorsOf lib options x
                 (ColorOklch (darkestOf x (optionsOf options)))
                 (ColorOklch (lightestOf x (optionsOf options)))))
    as [hexes HF].
  eexists. split; [apply (run_Ok _ _ _ _ _ _ Hder HF)|].
  repeat split.
Qed.

End Gradient.

(** * The reference instance satisfies the laws *)

Section ReferenceLaws.
Import Reference.
Local Open Scope Q_scope.

Lemma Qle_bool_true (x y : Q) : x <= y -> Qle_bool x y = true.
Proof. apply Qle_bool_iff. Qed.

Lemma Qle_bool_false (x y : Q) : y < x -> Qle_bool x y = false.
Proof.
  intros H. destruct (Qle_bool x y) eqn:E; [|reflexivity].
  apply Qle_bool_iff in E. lra.
Qed.

Lemma Qltb_true (x y : Q) : x < y -> Qltb x y = true.
Proof. intros H. unfold Qltb. rewrite Qle_bool_false by exact H. reflexivity. Qed.

Lemma Qltb_false (x y : Q) : y <= x -> Qltb x y = false.
Proof. intros H. unfold Qltb. rewrite Qle_bool_true by exact H. reflexivity. Qed.

(** The parameter of the path once brought into [0, 1]. *)
Lemma clamped_low (t : Q) : t <= 0 -> Qmin (Qmax 0 t) 1 <= 0.
Proof.
  intros H. unfold Qmin, Qmax.
  destruct (Qle_bool 0 t) eqn:E0.
  - rewrite Qle_bool_true by lra. exact H.
  - rewrite Qle_bool_true by lra. lra.
Qed.

Lemma clamped_high (t : Q) : 1 <= t -> Qmin (Qmax 0 t) 1 == 1.
Proof.
  intros H. unfold Qmin, Qmax.
  rewrite (Qle_bool_true 0 t) by lra.
  destruct (Qle_bool t 1) eqn:E1.
  - apply Qle_bool_iff in E1. lra.
  - reflexivity.
Qed.

Lemma Reference_clamp_reads_strings : clamp_reads_strings culori.
Proof. intros s. simpl. destruct (parseHex s); reflexivity. Qed.

Lemma Reference_clamp_defined : clamp_defined culori.
Proof. intros col. simpl. eauto. Qed.

Lemma Reference_clamp_keeps_oklch : clamp_keeps_oklch culori.
Proof. intros x. reflexivity. Qed.

Lemma Reference_oklch_undefined : oklch_undefined culori.
Proof. reflexivity. Qed.

Lemma Reference_oklch_defined : oklch_defined culori.
Proof. intros col. simpl. eauto. Qed.

Lemma Reference_formatHex_defined : formatHex_defined culori.
Proof. intros col. simpl. eauto. Qed.

Lemma Reference_samples_equidistant : samples_equidistant culori.
Proof.
  intros n Hn. destruct n as [|[|n]]; [lia|lia|]. reflexivity.
Qed.

Lemma Reference_path_starts_at_first : path_starts_at_first culori.
Proof.
  intros k0 k1 k2 p t Ht. simpl. unfold interpolateOklch.
  cbn [map fst snd normalizePositions setLast reverse rev_append
       normalizeFrom lookup list_lookup default].
  rewrite (Qle_bool_true _ 0) by (apply clamped_low; exact Ht).
  reflexivity.
Qed.

Lemma Reference_path_ends_at_last : path_ends_at_last culori.
Proof.
  intros k0 k1 k2 p t Hp Ht. simpl. unfold interpolateOklch.
  cbn [map fst snd normalizePositions setLast reverse rev_append
       normalizeFrom length Nat.sub toOklch].
  unfold default. cbn [from_option id lookup list_lookup].
  pose proof (clamped_high t Ht) as Hc.
  set (t' := Qmin (Qmax 0 t) 1) in *.
  set (p1 := if Qltb p 0 then 0 else p).
  assert (0 <= p1 /\ p1 < 1) as [Hp0 Hp1].
  { unfold p1, Qltb. destruct (Qle_bool 0 p) eqn:E; simpl.
    - apply Qle_bool_iff in E. lra.
    - lra. }
  rewrite (Qltb_false 1 p1) by lra.
  rewrite (Qle_bool_false t' 0) by lra.
  rewrite (Qltb_false 1 t') by lra.
  cbn [segmentIndex].
  rewrite (Qltb_true 0 t') by lra.
  rewrite (Qltb_true p1 t') by lra.
  rewrite (Qltb_false 1 t') by lra.
  cbn [from_option id lookup list_lookup Nat.sub Oklch.l Oklch.c].
  unfold interpolatorLinear.
  cbn [classes length from_option id].
  set (t0 := (inject_Z (Z.of_nat 2) - 1 + (t' - p1) / (1 - p1)) /
             inject_Z (Z.of_nat 2)).
  assert (t0 == 1) as Ht0.
  { unfold t0. rewrite Hc. simpl. field. lra. }
  rewrite (Qle_bool_true 1 t0) by lra.
  change (Z.to_nat (Z.of_nat 2 - 1)) with 1%nat.
  change (inject_Z (Z.of_nat 2 - 1)) with 1.
  cbn [lookup list_lookup]. unfold lerp. rewrite Ht0.
  split; ring.
Qed.

Lemma Qle_bool_compat (x x' y y' : Q) :
  x == x' -> y == y' -> Qle_bool x y = Qle_bool x' y'.
Proof.
  intros Hx Hy.
  destruct (Qle_bool x y) eqn:E, (Qle_bool x' y') eqn:E'; try reflexivity.
  - apply Qle_bool_iff in E. rewrite Hx, Hy in E.
    apply Qle_bool_iff in E. congruence.
  - apply Qle_bool_iff in E'. rewrite <- Hx, <- Hy in E'.
    apply Qle_bool_iff in E'. congruence.
Qed.

Lemma fixup_compat (v v' : Q) : v == v' -> fixup v = fixup v'.
Proof.
  intros Hv. unfold fixup. apply Qfloor_comp.
  assert (Qmin 1 v == Qmin 1 v') as Hmin.
  { unfold Qmin. rewrite (Qle_bool_compat 1 1 v v') by (reflexivity || exact Hv).
    destruct (Qle_bool 1 v'); [reflexivity|exact Hv]. }
  assert (Qmax 0 (Qmin 1 v) == Qmax 0 (Qmin 1 v')) as Hmax.
  { unfold Qmax.
    rewrite (Qle_bool_compat 0 0 (Qmin 1 v) (Qmin 1 v'))
      by (reflexivity || exact Hmin).
    destruct (Qle_bool 0 (Qmin 1 v')); [exact Hmin|reflexivity]. }
  rewrite Hmax. reflexivity.
Qed.

Lemma serializeHex_compat (a b : Rgb.t) :
  Rgb.r a == Rgb.r b -> Rgb.g a == Rgb.g b -> Rgb.b a == Rgb.b b ->
  serializeHex a = serializeHex b.
Proof.
  intros Hr Hg Hb. unfold serializeHex, hexOfChannel.
  rewrite (fixup_compat _ _ Hr), (fixup_compat _ _ Hg), (fixup_compat _ _ Hb).
  reflexivity.
Qed.

Lemma grey_channels (x : Oklch.t) :
  Oklch.c x == 0 ->
  Rgb.r (lchToRgb x) == Oklch.l x /\
  Rgb.g (lchToRgb x) == Oklch.l x /\
  Rgb.b (lchToRgb x) == Oklch.l x.
Proof.
  intros Hc. unfold lchToRgb.
  set (k := Qfloor _). set (f := _ - inject_Z k).
  destruct k as [|p|p];
    try (destruct p as [p|p|];
         try (destruct p as [p|p|]; try destruct p as [p|p|]));
    cbn; repeat split; rewrite ?Hc; field.
Qed.

Lemma Reference_formatHex_ignores_hue :
  formatHex_ignores_hue_without_chroma culori.
Proof.
  intros x hue Hc. simpl. f_equal.
  destruct (grey_channels x Hc) as (Hr & Hg & Hb).
  destruct (grey_channels (setHue x hue) Hc) as (Hr' & Hg' & Hb').
  apply serializeHex_compat.
  - rewrite Hr', Hr. reflexivity.
  - rewrite Hg', Hg. reflexivity.
  - rewrite Hb', Hb. reflexivity.
Qed.

End ReferenceLaws.

Lemma Reference_oklch_keeps_oklch : oklch_keeps_oklch Reference.culori.
Proof. intros x. reflexivity. Qed.

Lemma ReferenceCss_clamp_reads_strings :
  clamp_reads_strings ReferenceCss.culori.
Proof. intros s. simpl. destruct (ReferenceCss.parseCss s); reflexivity. Qed.

Lemma ReferenceCss_clamp_keeps_oklch : clamp_keeps_oklch ReferenceCss.culori.
Proof. intros x. reflexivity. Qed.

Lemma ReferenceCss_oklch_keeps_oklch : oklch_keeps_oklch ReferenceCss.culori.
Proof. intros x. reflexivity. Qed.

Lemma ReferenceCss_formatHex_defined : formatHex_defined ReferenceCss.culori.
Proof. intros col. simpl. eauto. Qed.

(** * The theorems at work on the reference instance *)

#[local] Existing Instance Reference.culori.

Lemma blue_parses : is_Some (parse (Culori := Reference.culori) "#3b82f6").
Proof. vm_compute. eexists. reflexivity. Defined.

Lemma createGradientWithOklch_returns_or_throws_witness :
  (exists r,
     createGradientWithOklch (lib := Reference.culori) "#3b82f6" None = Ok r) /\
  createGradientWithOklch (lib := Reference.culori) "bleu" None
  = Throw (TypeError "Expected 'val' to be defined, but received undefined").
Proof.
  split.
  - apply (proj1 (createGradientWithOklch_returns_or_throws
                    Reference_clamp_reads_strings Reference_clamp_defined
                    Reference_oklch_undefined Reference_oklch_defined
                    Reference_formatHex_defined "#3b82f6" None)).
    exact blue_parses.
  - apply (proj2 (createGradientWithOklch_returns_or_throws
                    Reference_clamp_reads_strings Reference_clamp_defined
                    Reference_oklch_undefined Reference_oklch_defined
                    Reference_formatHex_defined "bleu" None)).
    vm_compute. reflexivity.
Defined.

Lemma result_has_the_13_labels_witness :
  exists r,
    createGradientWithOklch (lib := Reference.culori) "#3b82f6" None = Ok r /\
    dom (gradient r) = LABELS /\
    dom (oklchPoints r) = LABELS /\
    size (gradient r) = 13%nat /\
    size (oklchPoints r) = 13%nat.
Proof.
  apply (result_has_the_13_labels
           Reference_clamp_reads_strings Reference_clamp_defined
           Reference_oklch_defined Reference_formatHex_defined
           Reference_samples_equidistant "#3b82f6" None).
  exact blue_parses.
Defined.

Lemma boundary_labels_are_white_and_black_witness :
  exists r,
    createGradientWithOklch (lib := Reference.culori) "#3b82f6"
      (Some lateStop) = Ok r /\
    gradient r !! Label 0 = Some "#FFFFFF" /\
    gradient r !! Label 1000 = Some "#000000" /\
    oklchPoints r !! Label 0
    = Some {| OklchPoint.l := 1; OklchPoint.c := 0; OklchPoint.h := None |} /\
    oklchPoints r !! Label 1000
    = Some {| OklchPoint.l := 0; OklchPoint.c := 0; OklchPoint.h := None |}.
Proof.
  apply (boundary_labels_are_white_and_black
           Reference_clamp_reads_strings Reference_clamp_defined
           Reference_oklch_defined Reference_formatHex_defined
           "#3b82f6" (Some lateStop)).
  exact blue_parses.
Defined.

Lemma samples_follow_LUMINANCE_witness :
  exists r m d l,
    createGradientWithOklch (lib := Reference.culori) "#3b82f6" None = Ok r /\
    derives Reference.culori "#3b82f6" None m d l /\
    samples (length LUMINANCE) = map position (seq 0 11) /\
    sampledColorsOf Reference.culori None m d l
    = map (lchGradientOf Reference.culori None m d l)
          (map position (seq 0 11)) /\
    map LUMINANCE_at (seq 0 11)
    = map Label [950; 900; 800; 700; 600; 500; 400; 300; 200; 100; 50]%N /\
    LUMINANCE_at 0 = Label 950 /\
    LUMINANCE_at 10 = Label 50 /\
    forall i : nat, (i <= 10)%nat ->
      exists hex,
        formatHex
          (ColorOklch (lchGradientOf Reference.culori None m d l (position i)))
        = Some hex /\
        gradient r !! LUMINANCE_at i = Some hex /\
        oklchPoints r !! LUMINANCE_at i
        = Some (pointOf (lchGradientOf Reference.culori None m d l
                           (position i))).
Proof.
  apply (samples_follow_LUMINANCE
           Reference_clamp_reads_strings Reference_clamp_defined
           Reference_oklch_defined Reference_formatHex_defined
           Reference_samples_equidistant "#3b82f6" None).
  exact blue_parses.
Defined.



Lemma achromatic_endpoints_witness :
  exists r m kd kl x950 x50 p950 p50,
    createGradientWithOklch (lib := Reference.culori) "#3b82f6"
      (Some achromaticEnds) = Ok r /\
    derives Reference.culori "#3b82f6" (Some achromaticEnds) m
      (ColorOklch kd) (ColorOklch kl) /\
    Oklch.c kd = 0%Q /\
    Oklch.c kl = 0%Q /\
    sampledColorsOf Reference.culori (Some achromaticEnds) m
      (ColorOklch kd) (ColorOklch kl) !! 0%nat = Some x950 /\
    sampledColorsOf Reference.culori (Some achromaticEnds) m
      (ColorOklch kd) (ColorOklch kl) !! 10%nat = Some x50 /\
    x950 = kd /\
    oklchPoints r !! Label 950 = Some p950 /\
    OklchPoint.c p950 = 0%Q /\
    OklchPoint.h p950 = Oklch.h x950 /\
    oklchPoints r !! Label 50 = Some p50 /\
    (OklchPoint.c p50 == 0)%Q /\
    OklchPoint.h p50 = Oklch.h x50 /\
    gradient r !! Label 950 = formatHex (ColorOklch x950) /\
    gradient r !! Label 50 = formatHex (ColorOklch x50) /\
    hue_undefined_or_ignored Reference.culori x950 /\
    hue_undefined_or_ignored Reference.culori x50.
Proof.
  apply (achromatic_endpoints
           Reference_clamp_reads_strings Reference_clamp_defined
           Reference_oklch_defined Reference_formatHex_defined
           Reference_samples_equidistant Reference_clamp_keeps_oklch
           Reference_path_starts_at_first Reference_path_ends_at_last
           Reference_formatHex_ignores_hue
           "#3b82f6" achromaticEnds blue_parses eq_refl eq_refl).
  vm_compute. reflexivity.
Defined.

(** The main colour written as an oklch colour of chroma 0.4, without
    options and with both chromas set to 0. *)
Lemma mainColorOklch_is_not_clamped_witness :
  (exists r,
     createGradientWithOklch (lib := ReferenceCss.culori)
       "oklch(0.7 0.4 150)" None = Ok r /\
     OklchPoint.l (mainColorOklch r) = 0.7%Q /\
     OklchPoint.c (mainColorOklch r) = 0.4%Q /\
     OklchPoint.h (mainColorOklch r) = Some 150%Q) /\
  (exists r,
     createGradientWithOklch (lib := ReferenceCss.culori)
       "oklch(0.7 0.4 150)" (Some achromaticEnds) = Ok r /\
     OklchPoint.l (mainColorOklch r) = 0.7%Q /\
     OklchPoint.c (mainColorOklch r) = 0.4%Q /\
     OklchPoint.h (mainColorOklch r) = Some 150%Q).
Proof.
  assert (parse (Culori := ReferenceCss.culori) "oklch(0.7 0.4 150)"
          = Some (ColorOklch {| Oklch.l := 0.7; Oklch.c := 0.4;
                                Oklch.h := Some 150%Q;
                                Oklch.alpha := None |})) as Hparse
    by (vm_compute; reflexivity).
  split;
    apply (mainColorOklch_is_not_clamped
             (lib := ReferenceCss.culori)
             ReferenceCss_clamp_reads_strings ReferenceCss_formatHex_defined
             ReferenceCss_clamp_keeps_oklch ReferenceCss_oklch_keeps_oklch
             "oklch(0.7 0.4 150)" _ Hparse).
Defined.

(** * Further properties of the code *)

(** ** [src/utils/assert.ts] *)

(** X1. [assertIsDefined(val, msg)] returns [val] exactly when
    [isDefined(val)] is true; when it is false, [val] being [undefined]
    or [null], it throws a [TypeError] whose message is [msg] when one
    is given and otherwise the standard text, which ends with the value
    received, "undefined" or "null".  On a value that is never [null]
    the two functions are those the gradient code uses. *)
Theorem assertIsDefined_agrees_with_isDefined {T : Type}
    (val : Assert.Nullable T) (msg : option string) :
  (Assert.isDefined val = true <->
   exists v, Assert.assertIsDefined val msg = Ok v) /\
  (forall v, Assert.assertIsDefined val msg = Ok v -> val = Assert.Defined v) /\
  (Assert.isDefined val = false ->
   Assert.assertIsDefined val msg
   = Throw (TypeError
       (match msg, val with
        | Some text, _ => text
        | None, Assert.JsNull =>
            "Expected 'val' to be defined, but received null"
        | None, _ => "Expected 'val' to be defined, but received undefined"
        end))) /\
  (forall o : option T,
     assertIsDefined o msg = Assert.assertIsDefined (Assert.ofOption o) msg /\
     isDefined o = Assert.isDefined (Assert.ofOption o)).
Proof.
  split; [|split; [|split]].
  - destruct val as [v| |]; simpl; split; eauto;
      try discriminate; intros [v Hv]; discriminate.
  - intros v. destruct val as [v'| |]; simpl; congruence.
  - destruct val as [v| |]; simpl; [discriminate| |];
      intros _; destruct msg; reflexivity.
  - intros [v|]; split; reflexivity.
Qed.

(** ** [createGradientWithOklch]: when it returns and what it throws *)

Lemma fromEntries_lookup_inv {V : Type} (es : list (Key * V)) (k : Key)
    (v : V) :
  fromEntries es !! k = Some v -> (k, v) ∈ es.
Proof.
  induction es as [|[k' v'] es IH] using rev_ind; intros H.
  - unfold fromEntries in H. simpl in H. rewrite lookup_empty in H.
    discriminate.
  - rewrite fromEntries_snoc in H. apply elem_of_app.
    destruct (decide (k' = k)) as [->|Hne].
    + rewrite lookup_insert_eq in H. injection H as ->.
      right. apply list_elem_of_singleton. reflexivity.
    + rewrite lookup_insert_ne in H by exact Hne. left. apply IH, H.
Qed.

Lemma imap_keys {A V : Type} (f : nat -> A -> Key * V) (key : nat -> Key)
    (xs : list A) :
  (forall i x, (f i x).1 = key i) ->
  (imap f xs).*1 = key <$> seq 0 (length xs).
Proof.
  revert f key. induction xs as [|x xs IH]; intros f key Hf; [reflexivity|].
  cbn [imap length seq fmap list_fmap]. rewrite Hf. f_equal.
  change (list_fmap _ _ fst (imap (f ∘ S) xs)) with ((imap (f ∘ S) xs).*1).
  rewrite (IH (f ∘ S) (key ∘ S)) by (intros i y; apply Hf).
  change (list_fmap _ _ key (seq 1 (length xs)))
    with (key <$> seq 1 (length xs)).
  rewrite <- fmap_S_seq, <- list_fmap_compose. reflexivity.
Qed.


Section Behaviour.
Context {lib : Culori}.

Lemma mapiM_from_throws {A : Type} (g : A -> option string)
    (key : nat -> Key) (xs : list A) (i : nat) (e : Error) :
  mapiM_from (fun i x => color ← assertIsDefined (g x) None; Ok (key i, color))
    i xs = Throw e ->
  e = TypeError "Expected 'val' to be defined, but received undefined" /\
  exists x, x ∈ xs /\ g x = None.
Proof.
  revert i. induction xs as [|x xs IH]; intros i H; simpl in H.
  - discriminate.
  - destruct (g x) as [hex|] eqn:Hx; simpl in H.
    + destruct (mapiM_from _ (S i) xs) as [ys|e'] eqn:Hrec; simpl in H;
        [discriminate|].
      injection H as <-. destruct (IH _ Hrec) as (He & y & Hy & Hgy).
      split; [exact He|]. exists y. split; [right; exact Hy|exact Hgy].
    + injection H as <-. split; [reflexivity|].
      exists x. split; [left|exact Hx].
Qed.

Lemma Forall2_defined (xs : list Oklch.t) (hexes : list string) :
  Forall2 (fun x hex => formatHex (ColorOklch x) = Some hex) xs hexes ->
  Forall (fun x => is_Some (formatHex (ColorOklch x))) xs.
Proof.
  induction 1 as [|x hex xs hexes Hx _ IH]; constructor; eauto.
Qed.

Lemma defined_Forall2 (xs : list Oklch.t) :
  Forall (fun x => is_Some (formatHex (ColorOklch x))) xs ->
  exists hexes,
    Forall2 (fun x hex => formatHex (ColorOklch x) = Some hex) xs hexes.
Proof.
  induction 1 as [|x xs [hex Hx] _ [hexes IH]].
  - exists []. constructor.
  - exists (hex :: hexes). constructor; assumption.
Qed.

(** Every result comes from the four steps having gone through. *)
Lemma run_inv (mainColor : string) (options : option GradientOptions)
    (r : GradientWithOklch) :
  createGradientWithOklch mainColor options = Ok r ->
  exists m d l hexes,
    derives lib mainColor options m d l /\
    Forall2 (fun x hex => formatHex (ColorOklch x) = Some hex)
      (sampledColorsOf lib options m d l) hexes /\
    r = resultOf (sampledColorsOf lib options m d l) hexes m.
Proof.
  intros Hrun.
  destruct (oklch (clamp (inl mainColor))) as [m|] eqn:Hm;
    [|unfold createGradientWithOklch in Hrun; cbv zeta in Hrun;
      rewrite Hm in Hrun; discriminate].
  destruct (clamp (inr (ColorOklch (darkestOf m (optionsOf options)))))
    as [d|] eqn:Hd;
    [|unfold createGradientWithOklch in Hrun; cbv zeta in Hrun;
      change (spreadOptions DEFAULT_OPTIONS options)
        with (optionsOf options) in Hrun;
      rewrite Hm in Hrun; cbn [assertIsDefined mbind Result_bind] in Hrun;
      rewrite Hd in Hrun; discriminate].
  destruct (clamp (inr (ColorOklch (lightestOf m (optionsOf options)))))
    as [l|] eqn:Hl;
    [|unfold createGradientWithOklch in Hrun; cbv zeta in Hrun;
      change (spreadOptions DEFAULT_OPTIONS options)
        with (optionsOf options) in Hrun;
      rewrite Hm in Hrun; cbn [assertIsDefined mbind Result_bind] in Hrun;
      rewrite Hd in Hrun; cbn [assertIsDefined mbind Result_bind] in Hrun;
      rewrite Hl in Hrun; discriminate].
  assert (derives lib mainColor options m d l) as Hder
    by (unfold derives; auto).
  destruct (mapiM_from
              (fun i x =>
                 color ← assertIsDefined (formatHex (ColorOklch x)) None;
                 Ok (LUMINANCE_at i, color))
              0 (sampledColorsOf lib options m d l)) as [ys|e] eqn:Hmap.
  - destruct (mapiM_from_inv _ _ _ _ _ Hmap) as [hexes HF].
    exists m, d, l, hexes. split; [exact Hder|]. split; [exact HF|].
    rewrite (run_Ok _ _ _ _ _ _ Hder HF) in Hrun. congruence.
  - exfalso. unfold createGradientWithOklch in Hrun. cbv zeta in Hrun.
    change (spreadOptions DEFAULT_OPTIONS options)
      with (optionsOf options) in Hrun.
    rewrite Hm in Hrun. cbn [assertIsDefined mbind Result_bind] in Hrun.
    rewrite Hd in Hrun. cbn [assertIsDefined mbind Result_bind] in Hrun.
    rewrite Hl in Hrun. cbn [assertIsDefined mbind Result_bind] in Hrun.
    unfold mapiM in Hrun.
    change (map (interpolate (keyframes d m (optionsOf options) l))
                (samples (length LUMINANCE)))
      with (sampledColorsOf lib options m d l) in Hrun.
    rewrite Hmap in Hrun. discriminate.
Qed.

(** X2. [createGradientWithOklch] returns a result exactly when the main
    colour converts ([oklch(clamp(mainColor))] is defined), [clamp] gives
    both endpoints and [formatHex] writes every sampled colour. *)
Theorem createGradientWithOklch_returns_iff (mainColor : string)
    (options : option GradientOptions) :
  (exists r, createGradientWithOklch mainColor options = Ok r) <->
  (exists m d l,
     derives lib mainColor options m d l /\
     Forall (fun x => is_Some (formatHex (ColorOklch x)))
       (sampledColorsOf lib options m d l)).
Proof.
  split.
  - intros [r Hrun].
    destruct (run_inv _ _ _ Hrun) as (m & d & l & hexes & Hder & HF & _).
    exists m, d, l. split; [exact Hder|]. exact (Forall2_defined _ _ HF).
  - intros (m & d & l & Hder & Hall).
    destruct (defined_Forall2 _ Hall) as [hexes HF].
    eexists. apply (run_Ok _ _ _ _ _ _ Hder HF).
Qed.

Lemma run_throws (mainColor : string) (options : option GradientOptions)
    (e : Error) :
  createGradientWithOklch mainColor options = Throw e ->
  e = TypeError "Expected 'val' to be defined, but received undefined".
Proof.
  intros Hrun.
  unfold createGradientWithOklch in Hrun. cbv zeta in Hrun.
  destruct (oklch (clamp (inl mainColor))) as [m|];
    cbn [assertIsDefined mbind Result_bind default] in Hrun;
    [|congruence].
  destruct (clamp (inr (ColorOklch (darkestOf m _)))) as [d|];
    cbn [assertIsDefined mbind Result_bind default] in Hrun;
    [|congruence].
  destruct (clamp (inr (ColorOklch (lightestOf m _)))) as [l|];
    cbn [assertIsDefined mbind Result_bind default] in Hrun;
    [|congruence].
  unfold mapiM in Hrun.
  destruct (mapiM_from _ 0 _) as [ys|e'] eqn:Hmap;
    cbn [mbind Result_bind] in Hrun; [discriminate|].
  injection Hrun as <-.
  apply (mapiM_from_throws _ _ _ _ _ Hmap).
Qed.

(** X3. Whatever the inputs and whichever of its four assertions fails,
    an exception of [createGradientWithOklch] is the [TypeError] of
    [assertIsDefined] with its standard message, and [createGradient]
    throws the same. *)
Theorem createGradientWithOklch_throws_only_the_assertion
    (mainColor : string) (options : option GradientOptions) (e : Error) :
  createGradientWithOklch mainColor options = Throw e ->
  e = TypeError "Expected 'val' to be defined, but received undefined" /\
  createGradient mainColor options = Throw e.
Proof.
  intros Hrun. split; [exact (run_throws _ _ _ Hrun)|].
  unfold createGradient. rewrite Hrun. reflexivity.
Qed.

(** X4. When [formatHex] cannot write one of the sampled colours the call
    throws: no entry of the palette is filled with something else and no
    partial palette is returned. *)
Theorem unwritable_sample_throws (mainColor : string)
    (options : option GradientOptions) (m : Oklch.t) (d l : Color)
    (x : Oklch.t) :
  derives lib mainColor options m d l ->
  x ∈ sampledColorsOf lib options m d l ->
  formatHex (ColorOklch x) = None ->
  createGradientWithOklch mainColor options
  = Throw (TypeError "Expected 'val' to be defined, but received undefined").
Proof.
  intros Hder Hin Hnone.
  destruct (createGradientWithOklch mainColor options) as [r|e] eqn:Hrun.
  - exfalso.
    destruct (run_inv _ _ _ Hrun) as (m' & d' & l' & hexes & Hder' & HF & _).
    destruct Hder as (Hm & Hd & Hl). destruct Hder' as (Hm' & Hd' & Hl').
    assert (m' = m) as -> by congruence.
    assert (d' = d) as -> by congruence.
    assert (l' = l) as -> by congruence.
    apply Forall2_defined in HF. rewrite Forall_forall in HF.
    destruct (HF x Hin) as [hex Hhex]. congruence.
  - f_equal. exact (run_throws _ _ _ Hrun).
Qed.

(** X13. Whatever the library does, a result that is returned has white
    at label 0 and black at label 1000, the same keys in [gradient] and
    in [oklchPoints], the converted main colour as [mainColorOklch], and
    no hex string of another origin: every other entry of [gradient] is
    what [formatHex] wrote for a sampled colour, under the label of its
    index. *)
Theorem every_result_is_consistent (mainColor : string)
    (options : option GradientOptions) (r : GradientWithOklch) :
  createGradientWithOklch mainColor options = Ok r ->
  gradient r !! Label 0 = Some "#FFFFFF" /\
  gradient r !! Label 1000 = Some "#000000" /\
  dom (gradient r) = dom (oklchPoints r) /\
  exists m d l,
    derives lib mainColor options m d l /\
    mainColorOklch r = pointOf m /\
    forall (k : Key) (hex : string),
      gradient r !! k = Some hex ->
      (k = Label 0 /\ hex = "#FFFFFF") \/
      (k = Label 1000 /\ hex = "#000000") \/
      exists (i : nat) (x : Oklch.t),
        sampledColorsOf lib options m d l !! i = Some x /\
        k = LUMINANCE_at i /\
        formatHex (ColorOklch x) = Some hex.
Proof.
  intros Hrun.
  destruct (run_inv _ _ _ Hrun) as (m & d & l & hexes & Hder & HF & ->).
  destruct (resultOf_boundary (sampledColorsOf lib options m d l) hexes m)
    as (Hg0 & Hg1000 & _ & _).
  split; [exact Hg0|]. split; [exact Hg1000|].
  split.
  { unfold resultOf; cbn [gradient oklchPoints].
    rewrite !dom_fromEntries, !fmap_app.
    rewrite (imap_keys _ LUMINANCE_at hexes) by reflexivity.
    rewrite (imap_keys _ LUMINANCE_at (sampledColorsOf lib options m d l))
      by reflexivity.
    rewrite (Forall2_length _ _ _ HF). reflexivity. }
  exists m, d, l. split; [exact Hder|]. split; [reflexivity|].
  intros k hex Hk.
  unfold resultOf in Hk; cbn [gradient] in Hk.
  apply fromEntries_lookup_inv, elem_of_app in Hk as [Hk|Hk].
  - right; right.
    apply elem_of_lookup_imap in Hk as (i & hex' & Heq & Hi).
    injection Heq as -> ->.
    destruct (Forall2_lookup_r _ _ _ _ _ HF Hi) as (x & Hx & Hfmt).
    exists i, x. split; [exact Hx|]. split; [reflexivity|].
    exact Hfmt.
  - apply elem_of_cons in Hk as [Hk|Hk].
    + injection Hk as -> ->. left. split; reflexivity.
    + apply list_elem_of_singleton in Hk. injection Hk as -> ->.
      right; left. split; reflexivity.
Qed.
(** ** Where the keyframes are in the palette *)

Hypothesis clamp_strings : clamp_reads_strings lib.
Hypothesis clamp_some : clamp_defined lib.
Hypothesis oklch_some : oklch_defined lib.
Hypothesis formatHex_some : formatHex_defined lib.
Hypothesis samples_spec : samples_equidistant lib.
Hypothesis clamp_oklch : clamp_keeps_oklch lib.
Hypothesis path_start : path_starts_at_first lib.
Hypothesis path_end : path_ends_at_last lib.
Hypothesis path_middle : path_passes_through_middle lib.

(** X5. When [mainColorStop] is one of the sampled positions 0.1, ...,
    0.9, the palette has the main colour there: the point under the
    label of that sample has the lightness and the chroma of
    [mainColorOklch].  With the default 0.5 this is label 500. *)
Theorem main_colour_is_at_its_stop (mainColor : string)
    (options : option GradientOptions) (i : nat) :
  is_Some (parse mainColor) ->
  (1 <= i <= 9)%nat ->
  (mainColorStop (optionsOf options) == position i)%Q ->
  exists r p,
    createGradientWithOklch mainColor options = Ok r /\
    oklchPoints r !! LUMINANCE_at i = Some p /\
    (OklchPoint.l p == OklchPoint.l (mainColorOklch r))%Q /\
    (OklchPoint.c p == OklchPoint.c (mainColorOklch r))%Q.
Proof.
  intros Hvalid Hi Hstop.
  destruct (run_defined clamp_strings clamp_some oklch_some formatHex_some
              mainColor options Hvalid)
    as (m & d & l & hexes & Hder & HF & Hrun).
  destruct (run_entry samples_spec options m d l hexes i HF ltac:(lia))
    as (_ & _ & _ & Hp).
  eexists _, _. split; [exact Hrun|]. split; [exact Hp|].
  cbn [mainColorOklch resultOf pointOf OklchPoint.l OklchPoint.c].
  unfold lchGradientOf, keyframes.
  apply path_middle.
  - rewrite Hstop. unfold position, Qlt. simpl. lia.
  - rewrite Hstop. unfold position, Qlt. simpl. lia.
  - symmetry. exact Hstop.
Qed.


End Behaviour.

(** ** [src/App.tsx]: the state of the page *)

(** X7. Moving a slider sets the one field of the options it names and
    leaves the colour and the four other fields as they were; moving the
    same slider again replaces the value, and moves of two different
    sliders can be swapped. *)
Theorem updateOption_sets_one_field (key : App.OptionKey) (value : Q)
    (st : App.State) :
  App.mainColor (App.updateOption key value st) = App.mainColor st /\
  (forall key' : App.OptionKey,
     App.field key' (App.options (App.updateOption key value st))
     = if decide (key' = key) then value
       else App.field key' (App.options st)) /\
  (forall value' : Q,
     App.updateOption key value' (App.updateOption key value st)
     = App.updateOption key value' st) /\
  (forall (key' : App.OptionKey) (value' : Q), key' <> key ->
     App.updateOption key' value' (App.updateOption key value st)
     = App.updateOption key value (App.updateOption key' value' st)).
Proof.
  split; [reflexivity|]. split; [|split].
  - intros key'. destruct key, key'; reflexivity.
  - intros value'. destruct key; reflexivity.
  - intros key' value' Hne. destruct key, key'; try reflexivity; congruence.
Qed.

(** X8. The page always hands all five options to
    [createGradientWithOklch], so none of its defaults is used: the
    merged options are the options of the page.  The defaults of the page
    are those of [createGradient.ts]: after a reset, and at the start,
    the page shows what a call without options on "#3b82f6" returns. *)
Theorem App_options_leave_no_default {lib : Culori} (st : App.State) :
  spreadOptions DEFAULT_OPTIONS (Some (App.asOptions (App.options st)))
  = App.options st /\
  App.gradientData (App.step st App.Reset)
  = createGradientWithOklch "#3b82f6" None /\
  App.gradientData App.initial = createGradientWithOklch "#3b82f6" None.
Proof.
  split; [destruct st as [col [a b c d e]]; reflexivity|].
  split; reflexivity.
Qed.

(** ** [src/App.tsx]: the plot *)


Section Plot.
Context {lib : Culori}.

Hypothesis clamp_strings : clamp_reads_strings lib.
Hypothesis clamp_some : clamp_defined lib.
Hypothesis oklch_some : oklch_defined lib.
Hypothesis formatHex_some : formatHex_defined lib.
Hypothesis samples_spec : samples_equidistant lib.
Hypothesis formatHex_writes : formatHex_not_empty lib.

(** The labels in the order of the page are those of the sampling, the
    other way round, between 0 and 1000. *)
Lemma LUMINANCE_ORDER_reverses_LUMINANCE :
  App.LUMINANCE_ORDER = (0 :: reverse LUMINANCE ++ [1000])%N.
Proof. reflexivity. Qed.

(** X10. The plot reads every entry of a result and finds each of them:
    its 13 points are, in this order, white (label 0), the samples from
    the last one (label 50) back to the first (label 950), and black
    (label 1000), each with its hex string, lightness and chroma. *)
Theorem sortedPoints_reads_the_whole_result (mainColor : string)
    (options : option GradientOptions) :
  is_Some (parse mainColor) ->
  exists r m d l,
    createGradientWithOklch mainColor options = Ok r /\
    derives lib mainColor options m d l /\
    map App.SortedPoint.lum (App.sortedPoints r)
    = (0 :: reverse LUMINANCE ++ [1000])%N /\
    App.sortedPoints r !! 0%nat
    = Some {| App.SortedPoint.lum := 0;
              App.SortedPoint.color := Some "#FFFFFF";
              App.SortedPoint.l := Some 1%Q;
              App.SortedPoint.c := Some 0%Q;
              App.SortedPoint.h := None |} /\
    App.sortedPoints r !! 12%nat
    = Some {| App.SortedPoint.lum := 1000;
              App.SortedPoint.color := Some "#000000";
              App.SortedPoint.l := Some 0%Q;
              App.SortedPoint.c := Some 0%Q;
              App.SortedPoint.h := None |} /\
    forall k : nat, (1 <= k <= 11)%nat ->
      let x := lchGradientOf lib options m d l (position (11 - k)) in
      exists lum,
        LUMINANCE !! (11 - k)%nat = Some lum /\
        App.sortedPoints r !! k
        = Some {| App.SortedPoint.lum := lum;
                  App.SortedPoint.color := formatHex (ColorOklch x);
                  App.SortedPoint.l := Some (Oklch.l x);
                  App.SortedPoint.c := Some (Oklch.c x);
                  App.SortedPoint.h := Oklch.h x |} /\
        is_Some (formatHex (ColorOklch x)).
Proof.
  intros Hvalid.
  destruct (run_defined clamp_strings clamp_some oklch_some formatHex_some
              mainColor options Hvalid)
    as (m & d & l & hexes & Hder & HF & Hrun).
  set (r := resultOf (sampledColorsOf lib options m d l) hexes m) in *.
  destruct (resultOf_boundary (sampledColorsOf lib options m d l) hexes m)
    as (Hg0 & Hg1000 & Hp0 & Hp1000).
  fold r in Hg0, Hg1000, Hp0, Hp1000.
  exists r, m, d, l. split; [exact Hrun|]. split; [exact Hder|].
  split; [reflexivity|].
  split.
  { unfold App.sortedPoints. cbn [App.LUMINANCE_ORDER map lookup list_lookup].
    rewrite Hg0, Hp0. reflexivity. }
  split.
  { unfold App.sortedPoints. cbn [App.LUMINANCE_ORDER map lookup list_lookup].
    rewrite Hg1000, Hp1000. reflexivity. }
  intros k Hk x.
  destruct (run_entry samples_spec options m d l hexes (11 - k) HF ltac:(lia))
    as (hex & Hfmt & Hg & Hp).
  fold r in Hg, Hp. fold x in Hfmt, Hg, Hp.
  unfold App.sortedPoints.
  do 12 (destruct k as [|k]; [first [lia |
    eexists; split; [reflexivity|];
    cbn [App.LUMINANCE_ORDER map lookup list_lookup Nat.sub] in *;
    unfold LUMINANCE_at in Hg, Hp;
    cbn [LUMINANCE lookup list_lookup Nat.sub] in Hg, Hp;
    rewrite Hg, Hp, Hfmt; split; [reflexivity|eauto] ]|]).
  lia.
Qed.

Local Open Scope Q_scope.




Lemma length_flat_map_const {A B : Type} (f : A -> list B) (n : nat)
    (xs : list A) :
  (forall x, length (f x) = n) ->
  length (flat_map f xs) = (length xs * n)%nat.
Proof.
  intros Hf. induction xs as [|x xs IH]; simpl; [reflexivity|].
  rewrite length_app, Hf, IH. reflexivity.
Qed.

(** X12. When [clamp] gives a colour for every colour and [formatHex]
    writes one, no cell of the background is skipped: there are 40 x 40
    of them. *)
Theorem backgroundCells_is_complete (hue : option Q) :
  length (App.backgroundCells hue) = 1600%nat.
Proof.
  unfold App.backgroundCells.
  assert (forall i j, length (App.cellAt hue i j) = 1%nat) as Hcell.
  { intros i j. unfold App.cellAt, App.cellHex.
    destruct (clamp_some (ColorOklch
                {| Oklch.l := App.cellLightness j;
                   Oklch.c := App.cellChroma i;
                   Oklch.h := hue; Oklch.alpha := None |})) as [col ->].
    cbn [mbind option_bind].
    destruct (formatHex_writes col) as (hex & -> & Hne).
    apply String.eqb_neq in Hne. rewrite Hne. reflexivity. }
  rewrite (length_flat_map_const _ 40).
  - reflexivity.
  - intros i. rewrite (length_flat_map_const _ 1); [reflexivity|].
    intros j. apply Hcell.
Qed.

End Plot.

(** * The further properties at work on the reference instance *)

Section ReferenceLaws2.
Import Reference.
Local Open Scope Q_scope.

Lemma Reference_path_passes_through_middle :
  path_passes_through_middle culori.
Proof.
  intros k0 k2 k1 p t Hp0 Hp1 Ht. simpl. unfold interpolateOklch.
  cbn [map fst snd normalizePositions setLast reverse rev_append
       normalizeFrom length Nat.sub toOklch].
  unfold default. cbn [from_option id lookup list_lookup].
  assert (Qmin (Qmax 0 t) 1 == p) as Hc.
  { unfold Qmin, Qmax. rewrite (Qle_bool_true 0 t) by lra.
    rewrite (Qle_bool_true t 1) by lra. exact Ht. }
  set (t' := Qmin (Qmax 0 t) 1) in *.
  rewrite (Qltb_false p 0) by lra.
  rewrite (Qltb_false 1 p) by lra.
  rewrite (Qle_bool_false t' 0) by lra.
  rewrite (Qltb_false 1 t') by lra.
  cbn [segmentIndex].
  rewrite (Qltb_true 0 t') by lra.
  rewrite (Qltb_false p t') by lra.
  cbn [from_option id lookup list_lookup Nat.sub Oklch.l Oklch.c].
  unfold interpolatorLinear.
  cbn [classes length from_option id].
  set (t0 := (inject_Z (Z.of_nat 1) - 1 + (t' - 0) / (p - 0)) /
             inject_Z (Z.of_nat 2)).
  assert (t0 == 1 # 2) as Ht0.
  { unfold t0. rewrite Hc. simpl. field. lra. }
  rewrite (Qle_bool_false 1 t0) by lra.
  assert (Qfloor (t0 * inject_Z (Z.of_nat 2)) = 1%Z) as Hfl.
  { assert (t0 * inject_Z (Z.of_nat 2) == 1) as ->
      by (rewrite Ht0; reflexivity).
    reflexivity. }
  rewrite Hfl.
  change (Z.to_nat (1 `max` 0)) with 1%nat.
  change (inject_Z (1 `max` 0)) with 1.
  cbn [lookup list_lookup]. unfold lerp. rewrite Ht0.
  split; simpl; ring.
Qed.

Lemma Reference_formatHex_not_empty : formatHex_not_empty culori.
Proof. intros col. eexists. split; [reflexivity|]. discriminate. Qed.

End ReferenceLaws2.

Lemma createGradientWithOklch_throws_only_the_assertion_witness :
  TypeError "Expected 'val' to be defined, but received undefined"
  = TypeError "Expected 'val' to be defined, but received undefined" /\
  createGradient (lib := Reference.culori) "bleu" (Some lateStop)
  = Throw (TypeError "Expected 'val' to be defined, but received undefined").
Proof.
  apply (createGradientWithOklch_throws_only_the_assertion
           (lib := Reference.culori) "bleu" (Some lateStop)).
  vm_compute. reflexivity.
Defined.

Lemma unwritable_sample_throws_witness :
  createGradientWithOklch (lib := halfMute) "#3b82f6" None
  = Throw (TypeError "Expected 'val' to be defined, but received undefined").
Proof.
  eapply (unwritable_sample_throws (lib := halfMute) "#3b82f6" None).
  - unfold derives. repeat split; reflexivity.
  - apply list_elem_of_lookup. exists 10%nat. reflexivity.
  - vm_compute. reflexivity.
Defined.

Lemma main_colour_is_at_its_stop_witness :
  exists r p,
    createGradientWithOklch (lib := Reference.culori) "#3b82f6" None = Ok r /\
    oklchPoints r !! Label 500 = Some p /\
    (OklchPoint.l p == OklchPoint.l (mainColorOklch r))%Q /\
    (OklchPoint.c p == OklchPoint.c (mainColorOklch r))%Q.
Proof.
  apply (main_colour_is_at_its_stop
           Reference_clamp_reads_strings Reference_clamp_defined
           Reference_oklch_defined Reference_formatHex_defined
           Reference_samples_equidistant Reference_path_passes_through_middle
           "#3b82f6" None 5).
  - exact blue_parses.
  - lia.
  - vm_compute. reflexivity.
Defined.


Lemma sortedPoints_reads_the_whole_result_witness :
  exists r m d l,
    createGradientWithOklch (lib := Reference.culori) "#3b82f6" None = Ok r /\
    derives Reference.culori "#3b82f6" None m d l /\
    map App.SortedPoint.lum (App.sortedPoints r)
    = (0 :: reverse LUMINANCE ++ [1000])%N /\
    App.sortedPoints r !! 0%nat
    = Some {| App.SortedPoint.lum := 0;
              App.SortedPoint.color := Some "#FFFFFF";
              App.SortedPoint.l := Some 1%Q;
              App.SortedPoint.c := Some 0%Q;
              App.SortedPoint.h := None |} /\
    App.sortedPoints r !! 12%nat
    = Some {| App.SortedPoint.lum := 1000;
              App.SortedPoint.color := Some "#000000";
              App.SortedPoint.l := Some 0%Q;
              App.SortedPoint.c := Some 0%Q;
              App.SortedPoint.h := None |} /\
    forall k : nat, (1 <= k <= 11)%nat ->
      let x := lchGradientOf Reference.culori None m d l (position (11 - k)) in
      exists lum,
        LUMINANCE !! (11 - k)%nat = Some lum /\
        App.sortedPoints r !! k
        = Some {| App.SortedPoint.lum := lum;
                  App.SortedPoint.color := formatHex (ColorOklch x);
                  App.SortedPoint.l := Some (Oklch.l x);
                  App.SortedPoint.c := Some (Oklch.c x);
                  App.SortedPoint.h := Oklch.h x |} /\
        is_Some (formatHex (ColorOklch x)).
Proof.
  apply (sortedPoints_reads_the_whole_result
           Reference_clamp_reads_strings Reference_clamp_defined
           Reference_oklch_defined Reference_formatHex_defined
           Reference_samples_equidistant "#3b82f6" None).
  exact blue_parses.
Defined.



Lemma backgroundCells_is_complete_witness :
  length (App.backgroundCells (lib := Reference.culori) (Some 217%Q))
  = 1600%nat.
Proof.
  exact (backgroundCells_is_complete
           Reference_clamp_defined Reference_formatHex_not_empty
           (Some 217%Q)).
Defined.

Lemma every_result_is_consistent_witness :
  exists r,
    createGradientWithOklch (lib := Reference.culori) "#3b82f6" None = Ok r /\
    gradient r !! Label 0 = Some "#FFFFFF" /\
    gradient r !! Label 1000 = Some "#000000" /\
    dom (gradient r) = dom (oklchPoints r) /\
    exists m d l,
      derives Reference.culori "#3b82f6" None m d l /\
      mainColorOklch r = pointOf m /\
      forall (k : Key) (hex : string),
        gradient r !! k = Some hex ->
        (k = Label 0 /\ hex = "#FFFFFF") \/
        (k = Label 1000 /\ hex = "#000000") \/
        exists (i : nat) (x : Oklch.t),
          sampledColorsOf Reference.culori None m d l !! i = Some x /\
          k = LUMINANCE_at i /\
          formatHex (ColorOklch x) = Some hex.
Proof.
  destruct (createGradientWithOklch (lib := Reference.culori) "#3b82f6" None)
    as [r|e] eqn:Hrun.
  - exists r. split; [reflexivity|].
    exact (every_result_is_consistent (lib := Reference.culori)
             "#3b82f6" None r Hrun).
  - vm_compute in Hrun. discriminate.
Defined.
